(** * Gas and storage-collateral estimation of the transaction controller

    A shallow embedding of
    [app/scripts/controllers/transactions/tx-gas-utils.js] (class [TxGasUtil]):
    [analyzeGasUsage], [estimateTxGasAndCollateral], [setTxGas] and
    [addGasBuffer], together with the parts of the JavaScript run time and of
    the big-number library [bn.js] that these four methods exercise. *)

From Stdlib Require Import ZArith List String Ascii Bool Lia.
From Stdlib Require Import HexString.
From Stdlib Require Import SpecFloat PrimFloat FloatOps.
Import ListNotations.

Local Open Scope Z_scope.

(** ** JavaScript numbers

    A JavaScript number is an IEEE 754 binary64 value.  [spec_float] with
    [prec = 53] and [emax = 1024] is that format; [SFmul] and [SFdiv] are the
    correctly rounded (nearest, ties to even) product and quotient. *)
Module JsNumber.

Definition number : Type := spec_float.

Definition prec : Z := 53.
Definition emax : Z := 1024.

(** The number that an integer denotes (exact below [2^53]). *)
Definition of_int (z : Z) : number := binary_normalize prec emax z 0 false.

Definition mul (x y : number) : number := SFmul prec emax x y.
Definition div (x y : number) : number := SFdiv prec emax x y.

(** The integer part of a number, rounding towards zero; [NaN] and the
    infinities give [0], as in the abstract operation [ToInt32]. *)
Definition trunc (x : number) : Z :=
  match x with
  | S754_finite s m e =>
      let a := if 0 <=? e then Zpos m * 2 ^ e else Zpos m / 2 ^ (- e) in
      if s then - a else a
  | _ => 0
  end.

(** Wrap-around of an integer into the signed 32-bit range. *)
Definition wrap32 (z : Z) : Z :=
  let r := z mod 2 ^ 32 in
  if r <? 2 ^ 31 then r else r - 2 ^ 32.

(** [ToInt32], the conversion that [x | 0] and [x & y] apply to [x]. *)
Definition ToInt32 (x : number) : Z := wrap32 (trunc x).

(** [x >>> k] on an integer-valued number: [ToUint32] and a logical shift. *)
Definition ushiftr (z k : Z) : Z := Z.shiftr (z mod 2 ^ 32) k.

(** The literals of [addGasBuffer] and of [imuln], as binary64 values:
    [0.9] is [8106479329266893 * 2^-53], [1.5] is [3 * 2^51 * 2^-52]. *)
Definition lit_0_9 : number := S754_finite false 8106479329266893 (-53).
Definition lit_1_5 : number := S754_finite false 6755399441055744 (-52).
Definition lit_0x4000000 : number := of_int 0x4000000.

End JsNumber.

(** ** Big numbers ([bn.js])

    A [BN] holds its magnitude in [words] of 26 bits, least significant
    first, and counts them in [length]; the list of words models both.  Only
    non-negative numbers occur in this file ([negative] is [0] throughout). *)
Module BN.

Import JsNumber.

Definition t : Type := list Z.

Definition word_mask : Z := 0x3ffffff.

Fixpoint to_words (fuel : nat) (n : Z) : list Z :=
  match fuel with
  | O => []
  | S fuel' =>
      if n <? 2 ^ 26 then [n]
      else (n mod 2 ^ 26) :: to_words fuel' (n / 2 ^ 26)
  end.

(** The number that the constructor builds for a value: its words without
    leading zero words (after [strip]), a single [0] for zero.  The fuel is
    the bit length, which always is enough (see [value_words]). *)
Definition words (n : Z) : t := to_words (S (Z.to_nat (Z.log2 n))) n.

(** The integer that a number stands for. *)
Fixpoint value (ws : t) : Z :=
  match ws with
  | [] => 0
  | w :: rest => w + 2 ^ 26 * value rest
  end.

Definition is_word (w : Z) : Prop := 0 <= w < 2 ^ 26.

(** The loop of [BN.prototype.imuln]:
<<
    var carry = 0;
    for (var i = 0; i < this.length; i++) {
      var w = (this.words[i] | 0) * num;
      var lo = (w & 0x3ffffff) + (carry & 0x3ffffff);
      carry >>= 26;
      carry += (w / 0x4000000) | 0;
      carry += lo >>> 26;
      this.words[i] = lo & 0x3ffffff;
    }
>>
    [num] is a JavaScript number; nothing in the loop requires it to be an
    integer, and [w] is the binary64 product. *)
Fixpoint imuln_loop (num : number) (ws : list Z) (carry : Z) : list Z * Z :=
  match ws with
  | [] => ([], carry)
  | wi :: rest =>
      let w := mul (of_int (wrap32 wi)) num in
      let lo := Z.land (ToInt32 w) word_mask + Z.land carry word_mask in
      let carry := Z.shiftr carry 26 in
      let carry := carry + ToInt32 (div w lit_0x4000000) in
      let carry := carry + ushiftr lo 26 in
      let '(rest', carry') := imuln_loop num rest carry in
      (Z.land lo word_mask :: rest', carry')
  end.

(** What one word adds to the result: the low 26 bits of [w] stay in place
    and [(w / 0x4000000) | 0] is carried into the next word. *)
Definition limb (num : number) (wi : Z) : Z :=
  let w := mul (of_int (wrap32 wi)) num in
  Z.land (ToInt32 w) word_mask + 2 ^ 26 * ToInt32 (div w lit_0x4000000).

(** [imuln]: the loop, then
<<
    if (carry !== 0) { this.words[i] = carry; this.length++; }
>> *)
Definition imuln (ws : list Z) (num : number) : list Z :=
  let '(ws', carry) := imuln_loop num ws 0 in
  if carry =? 0 then ws' else ws' ++ [carry].

(** [muln(num)] is [this.clone().imuln(num)]; the result is not stripped of
    leading zero words. *)
Definition muln (x : t) (num : number) : t := imuln x num.

(** The loop of [BN.prototype.ucmp], from the most significant word down:
<<
    for (var i = this.length - 1; i >= 0; i--) {
      var a = this.words[i] | 0;
      var b = num.words[i] | 0;
      if (a === b) continue;
      if (a < b) { res = -1; } else if (a > b) { res = 1; }
      break;
    }
>> *)
Fixpoint ucmp_words (this_down num_down : list Z) : Z :=
  match this_down, num_down with
  | x :: this_rest, y :: num_rest =>
      let a := wrap32 x in
      let b := wrap32 y in
      if a =? b then ucmp_words this_rest num_rest
      else if a <? b then -1 else 1
  | _, _ => 0
  end.

(** [ucmp]: the lengths decide first,
<<
    if (this.length > num.length) return 1;
    if (this.length < num.length) return -1;
>>
    and only numbers of equal length are compared word by word. *)
Definition ucmp (this num : t) : Z :=
  if (List.length num <? List.length this)%nat then 1
  else if (List.length this <? List.length num)%nat then -1
  else ucmp_words (rev this) (rev num).

(** [cmp] of two non-negative numbers is [ucmp]. *)
Definition cmp (this num : t) : Z := ucmp this num.

Definition gt (this num : t) : bool := cmp this num =? 1.
Definition lt (this num : t) : bool := cmp this num =? -1.

End BN.

(** ** Hex strings and the helpers of [lib/util] and [cfx-util] *)
Module Util.

Local Open Scope string_scope.

(** [isHexPrefixed]: [str.slice(0, 2) === '0x']. *)
Definition isHexPrefixed (str : string) : bool := String.prefix "0x" str.

(** [stripHexPrefix] on a string. *)
Definition stripHexPrefix (str : string) : string :=
  if isHexPrefixed str then substring 2 (String.length str - 2) str else str.

(** [addHexPrefix] of [cfx-util]: a value that is not a string (here
    [undefined], modelled by [None]) is returned as it is. *)
Definition addHexPrefix (v : option string) : option string :=
  match v with
  | None => None
  | Some str => Some (if isHexPrefixed str then str else "0x" ++ str)
  end.

(** Modelled from the spec: [hexToBn] of [lib/util], which is not among the
    sources.  Section 2 asks the numeric primitives for a hex-string round
    trip: the digits after an optional [0x] are read in base 16, and the
    [BN] of that value is built. *)
Definition hexToBn (inputHex : string) : BN.t :=
  BN.words (Z.of_N (HexString.Raw.to_N (stripHexPrefix inputHex) 0%N)).

(** Modelled from the spec: [bnToHex] of [lib/util], the other half of the
    round trip: the value of the number in base 16, lower case, behind [0x]
    (a leading zero word of the number adds nothing to its value). *)
Definition bnToHex (inputBn : BN.t) : string :=
  HexString.of_N (Z.to_N (BN.value inputBn)).

(** Modelled from the spec: [BnMultiplyByFraction] of [lib/util]; section 2
    describes it as exact integer fraction scaling,
    [value * numerator / denominator], truncating. *)
Definition BnMultiplyByFraction (targetBN : BN.t) (numerator denominator : Z) : BN.t :=
  BN.words (BN.value targetBN * numerator / denominator).

(** The integer that a hex string stands for. *)
Definition hexValue (hex : string) : Z := BN.value (hexToBn hex).

End Util.

(** ** The buffer calculator *)

Import Util.

(** [addGasBuffer (initialGasLimitHex, blockGasLimitHex)]. *)
Definition addGasBuffer (initialGasLimitHex blockGasLimitHex : string) : string :=
  let initialGasLimitBn := hexToBn initialGasLimitHex in
  let blockGasLimitBn := hexToBn blockGasLimitHex in
  let upperGasLimitBn := BN.muln blockGasLimitBn JsNumber.lit_0_9 in
  let bufferedGasLimitBn := BN.muln initialGasLimitBn JsNumber.lit_1_5 in
  (* if initialGasLimit is above blockGasLimit, dont modify it *)
  if BN.gt initialGasLimitBn upperGasLimitBn then bnToHex initialGasLimitBn
  (* if bufferedGasLimit is below blockGasLimit, use bufferedGasLimit *)
  else if BN.lt bufferedGasLimitBn upperGasLimitBn then bnToHex bufferedGasLimitBn
  (* otherwise use blockGasLimit *)
  else bnToHex upperGasLimitBn.

(** The buffer as section 4.3 of the specification words it, on exact
    integers: [upper = blockGasLimit * 9 / 10] and
    [buffered = initial * 3 / 2], both truncating. *)
Definition spec_buffer (initial blockGasLimit : Z) : Z :=
  let upper := blockGasLimit * 9 / 10 in
  let buffered := initial * 3 / 2 in
  if upper <? initial then initial
  else if buffered <? upper then buffered
  else upper.

(** ** The data model *)

Local Open Scope string_scope.

Definition SIMPLE_GAS_COST : string := "0x5208".
Definition SIMPLE_STORAGE_COST : string := "0x0".

(** A property that holds a string or is [undefined] ([None]).
    [Boolean (v)] is false for [undefined] and for the empty string. *)
Definition Boolean (v : option string) : bool :=
  match v with
  | None => false
  | Some s => negb (s =? "")
  end.

(** [a === b] for a property and a string constant. *)
Definition strict_eq (a : option string) (b : string) : bool :=
  match a with
  | None => false
  | Some s => s =? b
  end.

Record TxParams : Type := mkTxParams {
  to : option string;
  data : option string;
  gas : option string;
  storageLimit : option string
}.

(** An [Error] object with the two properties the estimator bolts on. *)
Module Err.
Record t : Type := mk {
  message : string;
  errorKey : option string;
  getCodeResponse : option string
}.
End Err.

Module Debug.
Record t : Type := mk {
  blockNumber : string;
  blockGasLimit : string;
  getCodeResponse : option string
}.
End Debug.

Module SimulationFails.
Record t : Type := mk {
  reason : string;
  errorKey : option string;
  debug : Debug.t
}.
End SimulationFails.

(** The bookkeeping flags are read for their truth value only, so an
    [undefined] flag is modelled by [false]. *)
Record TxMeta : Type := mkTxMeta {
  txParams : TxParams;
  transactionCategory : option string;
  simpleSend : bool;
  gasLimitSpecified : bool;
  storageLimitSpecified : bool;
  estimatedGas : option string;
  estimatedStorage : option string;
  simulationFails : option SimulationFails.t
}.

Record Block : Type := mkBlock {
  number : string;
  gasLimit : string
}.

(** What [estimateTxGasAndCollateral] hands back: an object with the two
    properties, or (on the simple-send path) a bare string. *)
Inductive JsValue : Type :=
  | VObject (gasUsed storageCollateralized : option string)
  | VString (s : string).

(** [const { gasUsed, storageCollateralized } = v]: a string has neither
    property, both names are bound to [undefined]. *)
Definition destructure (v : JsValue) : option string * option string :=
  match v with
  | VObject g s => (g, s)
  | VString _ => (None, None)
  end.

(** Field updates ([txParams.gas = v], [txMeta.simpleSend = v], ...). *)
Definition set_gas (v : option string) (p : TxParams) : TxParams :=
  mkTxParams (to p) (data p) v (storageLimit p).
Definition set_storageLimit (v : option string) (p : TxParams) : TxParams :=
  mkTxParams (to p) (data p) (gas p) v.

Definition set_txParams (p : TxParams) (m : TxMeta) : TxMeta :=
  mkTxMeta p (transactionCategory m) (simpleSend m) (gasLimitSpecified m)
    (storageLimitSpecified m) (estimatedGas m) (estimatedStorage m) (simulationFails m).
Definition set_simpleSend (b : bool) (m : TxMeta) : TxMeta :=
  mkTxMeta (txParams m) (transactionCategory m) b (gasLimitSpecified m)
    (storageLimitSpecified m) (estimatedGas m) (estimatedStorage m) (simulationFails m).
Definition set_gasLimitSpecified (b : bool) (m : TxMeta) : TxMeta :=
  mkTxMeta (txParams m) (transactionCategory m) (simpleSend m) b
    (storageLimitSpecified m) (estimatedGas m) (estimatedStorage m) (simulationFails m).
Definition set_storageLimitSpecified (b : bool) (m : TxMeta) : TxMeta :=
  mkTxMeta (txParams m) (transactionCategory m) (simpleSend m) (gasLimitSpecified m)
    b (estimatedGas m) (estimatedStorage m) (simulationFails m).
Definition set_estimatedGas (v : option string) (m : TxMeta) : TxMeta :=
  mkTxMeta (txParams m) (transactionCategory m) (simpleSend m) (gasLimitSpecified m)
    (storageLimitSpecified m) v (estimatedStorage m) (simulationFails m).
Definition set_estimatedStorage (v : option string) (m : TxMeta) : TxMeta :=
  mkTxMeta (txParams m) (transactionCategory m) (simpleSend m) (gasLimitSpecified m)
    (storageLimitSpecified m) (estimatedGas m) v (simulationFails m).
Definition set_simulationFails (v : option SimulationFails.t) (m : TxMeta) : TxMeta :=
  mkTxMeta (txParams m) (transactionCategory m) (simpleSend m) (gasLimitSpecified m)
    (storageLimitSpecified m) (estimatedGas m) (estimatedStorage m) v.

(** ** Effects

    The methods mutate the [txMeta] object they are given, call the network
    through [this.query], and may throw.  A computation therefore runs on a
    heap that holds the one [txMeta] of the call and the log of the network
    requests made so far; it completes normally or abruptly, and the
    mutations made before a [throw] stay in the heap. *)

Inductive NetCall : Type :=
  | GetBlockByNumber (tag : string) (fullTx : bool)
  | EstimateGas (p : TxParams).

Record Heap : Type := mkHeap {
  meta : TxMeta;
  requests : list NetCall
}.

Inductive Completion (A : Type) : Type :=
  | Normal (a : A)
  | Throw (e : Err.t).
Arguments Normal {A} a.
Arguments Throw {A} e.

Definition Js (A : Type) : Type := Heap -> Completion A * Heap.

Definition ret {A} (a : A) : Js A := fun h => (Normal a, h).

Definition bind {A B} (m : Js A) (k : A -> Js B) : Js B :=
  fun h =>
    match m h with
    | (Normal a, h') => k a h'
    | (Throw e, h') => (Throw e, h')
    end.

Definition throw {A} (e : Err.t) : Js A := fun h => (Throw e, h).

(** [try { body } catch (err) { handler }]. *)
Definition try_catch {A} (body : Js A) (handler : Err.t -> Js A) : Js A :=
  fun h =>
    match body h with
    | (Normal a, h') => (Normal a, h')
    | (Throw e, h') => handler e h'
    end.

(** Reading and mutating the [txMeta] of the call. *)
Definition read : Js TxMeta := fun h => (Normal (meta h), h).
Definition mutate (f : TxMeta -> TxMeta) : Js unit :=
  fun h => (Normal tt, mkHeap (f (meta h)) (requests h)).
Definition mutateParams (f : TxParams -> TxParams) : Js unit :=
  mutate (fun m => set_txParams (f (txParams m)) m).

Definition when (b : bool) (m : Js unit) : Js unit := if b then m else ret tt.

Declare Scope js_scope.
Delimit Scope js_scope with js.
Notation "x <- m ;; k" := (bind m (fun x => k))
  (at level 61, m at next level, right associativity) : js_scope.
Notation "m ;; k" := (bind m (fun _ => k))
  (at level 61, right associativity) : js_scope.
Local Open Scope js_scope.

(** The network query adapter ([EthQuery] over the provider): each request
    settles with a value or rejects with an error. *)
Record EthQuery : Type := mkEthQuery {
  getBlockByNumber : string -> bool -> Completion Block;
  estimateGas : TxParams -> Completion (string * string)
}.

Section TxGasUtil.

(** Constants of [ui/app/helpers/constants], which are not among the
    sources, and the address classifier of [cfx-util]. *)
Variable SEND_ETHER_ACTION_KEY : string.
Variable TRANSACTION_NO_CONTRACT_ERROR_KEY : string.
Variable isValidContractAddress : string -> bool.

(** [this.query]. *)
Variable query : EthQuery.

Definition await_getBlockByNumber (tag : string) (fullTx : bool) : Js Block :=
  fun h =>
    (getBlockByNumber query tag fullTx,
     mkHeap (meta h) (requests h ++ [GetBlockByNumber tag fullTx])).

Definition await_estimateGas (p : TxParams) : Js JsValue :=
  fun h =>
    (match estimateGas query p with
     | Normal (g, s) => Normal (VObject (Some g) (Some s))
     | Throw e => Throw e
     end,
     mkHeap (meta h) (requests h ++ [EstimateGas p])).

(** [txParams.to && !isValidContractAddress(txParams.to)]. *)
Definition to_is_plain_account (p : TxParams) : bool :=
  match to p with
  | Some a => negb (a =? "") && negb (isValidContractAddress a)
  | None => false
  end.

(** [estimateTxGasAndCollateral (txMeta, blockGasLimitHex, getCodeResponse)]. *)
Definition estimateTxGasAndCollateral
    (blockGasLimitHex : string) (getCodeResponse : option string) : Js JsValue :=
  (* new unapproved tx will come here first *)
  m <- read ;;
  when (to_is_plain_account (txParams m)) (mutate (set_simpleSend true)) ;;
  (* check if gasLimit is already specified *)
  m <- read ;;
  mutate (set_gasLimitSpecified (Boolean (gas (txParams m)))) ;;
  mutate (set_storageLimitSpecified (Boolean (storageLimit (txParams m)))) ;;
  m <- read ;;
  when (negb (storageLimitSpecified m))
    (mutateParams (set_storageLimit (Some SIMPLE_STORAGE_COST)) ;;
     mutate (set_storageLimitSpecified true)) ;;
  (* if it is, use that value *)
  m <- read ;;
  if gasLimitSpecified m && storageLimitSpecified m then
    ret (VObject (gas (txParams m)) (storageLimit (txParams m)))
  else
    let recipient := to (txParams m) in
    let hasRecipient := Boolean recipient in
    (* see if we can set the gas based on the recipient *)
    if hasRecipient && strict_eq (transactionCategory m) SEND_ETHER_ACTION_KEY then
      (* if there's data in the params, but there's no contract code,
         it's not a valid transaction *)
      if Boolean (data (txParams m)) then
        throw (Err.mk "TxGasUtil - Trying to call a function on a non-contract address"
                      (Some TRANSACTION_NO_CONTRACT_ERROR_KEY) getCodeResponse)
      else
        (* This is a standard ether simple send, gas requirement is exactly 21k *)
        mutateParams (set_gas (Some SIMPLE_GAS_COST)) ;;
        (* prevents buffer addition *)
        mutate (set_simpleSend true) ;;
        ret (VString SIMPLE_GAS_COST)
    else
      (* fallback to block gasLimit *)
      let blockGasLimitBN := hexToBn blockGasLimitHex in
      let saferGasLimitBN := BnMultiplyByFraction blockGasLimitBN 19 20 in
      mutateParams (set_gas (Some (bnToHex saferGasLimitBN))) ;;
      (* estimate tx gas requirements *)
      m <- read ;;
      await_estimateGas (txParams m).

(** An [undefined] argument of [hexToBn] leaves [BN] without digits to read:
    the value is zero, as for the empty string. *)
Definition hex_arg (v : option string) : string :=
  match v with
  | Some s => s
  | None => ""
  end.

(** [setTxGas (txMeta, blockGasLimitHex, { estimatedGasHex, estimatedStorageHex })]. *)
Definition setTxGas (blockGasLimitHex : string)
    (estimatedGasHex estimatedStorageHex : option string) : Js unit :=
  mutate (set_estimatedGas (addHexPrefix estimatedGasHex)) ;;
  mutate (set_estimatedStorage (addHexPrefix estimatedStorageHex)) ;;
  m <- read ;;
  if simpleSend m then
    mutate (set_estimatedGas (gas (txParams m))) ;;
    mutate (set_estimatedStorage (Some SIMPLE_STORAGE_COST))
  else
    when (storageLimitSpecified m)
      (mutate (set_estimatedStorage (storageLimit (txParams m)))) ;;
    (* if gasLimit was specified and doesnt OOG, use original specified amount *)
    if gasLimitSpecified m then
      mutate (set_estimatedGas (gas (txParams m)))
    else
      (* if gasLimit not originally specified, try adding an additional gas
         buffer to our estimation for safety *)
      m <- read ;;
      let recommendedGasHex := addGasBuffer (hex_arg (estimatedGas m)) blockGasLimitHex in
      mutateParams (set_gas (Some recommendedGasHex)) ;;
      m <- read ;;
      when (negb (storageLimitSpecified m))
        (mutateParams (set_storageLimit (estimatedStorage m))).

(** [analyzeGasUsage (txMeta, getCodeResponse)]; the [txMeta] it returns is
    the object it was given, that is, the one in the heap. *)
Definition analyzeGasUsage (getCodeResponse : option string) : Js unit :=
  block <- await_getBlockByNumber "latest" false ;;
  estimate <-
    try_catch
      (v <- estimateTxGasAndCollateral (gasLimit block) getCodeResponse ;;
       ret (Some (destructure v)))
      (fun err =>
         mutate (set_simulationFails (Some
           (SimulationFails.mk (Err.message err) (Err.errorKey err)
              (Debug.mk (number block) (gasLimit block) None)))) ;;
         when (strict_eq (Err.errorKey err) TRANSACTION_NO_CONTRACT_ERROR_KEY)
           (mutate (set_simulationFails (Some
              (SimulationFails.mk (Err.message err) (Err.errorKey err)
                 (Debug.mk (number block) (gasLimit block) (Err.getCodeResponse err)))))) ;;
         ret None) ;;
  match estimate with
  | None => ret tt
  | Some (estimatedGasHex, estimatedStorageHex) =>
      setTxGas (gasLimit block) estimatedGasHex estimatedStorageHex
  end.

(** The path condition of the last assignment of [setTxGas],
    [txParams.storageLimit = txMeta.estimatedStorage]: the method is entered
    with a record that is not a simple send and has neither flag set (the
    method itself writes none of the three). *)
Definition copies_estimated_storage (m : TxMeta) : bool :=
  negb (simpleSend m) && negb (gasLimitSpecified m) && negb (storageLimitSpecified m).

(** Two network adapters that answer alike, except possibly in the
    [storageCollateralized] of an estimate. *)
Definition same_up_to_storage (q q' : EthQuery) : Prop :=
  (forall tag fullTx, getBlockByNumber q tag fullTx = getBlockByNumber q' tag fullTx) /\
  (forall p,
      match estimateGas q p, estimateGas q' p with
      | Normal (g, _), Normal (g', _) => g = g'
      | Throw e, Throw e' => e = e'
      | _, _ => False
      end).

(** The heap once the latest block has been asked for. *)
Definition fetched (h : Heap) : Heap :=
  mkHeap (meta h) (requests h ++ [GetBlockByNumber "latest" false]).

(** The [simulationFails] record that the [catch] clause builds. *)
Definition failure_record (block : Block) (err : Err.t) : SimulationFails.t :=
  SimulationFails.mk (Err.message err) (Err.errorKey err)
    (Debug.mk (number block) (gasLimit block)
       (if strict_eq (Err.errorKey err) TRANSACTION_NO_CONTRACT_ERROR_KEY
        then Err.getCodeResponse err else None)).

End TxGasUtil.

(** ** Sample transactions and network adapters *)
Module Sample.

Definition SEND_ETHER_ACTION_KEY : string := "sentEther".
Definition TRANSACTION_NO_CONTRACT_ERROR_KEY : string := "transactionErrorNoContract".

(** Contract addresses of the network start with [0x8]. *)
Definition isValidContractAddress (address : string) : bool := String.prefix "0x8" address.

Definition block : Block := mkBlock "0x10" "0x186a0".

Definition estimate_error : Err.t :=
  Err.mk "gas required exceeds allowance or always failing transaction" None None.
Definition offline_error : Err.t := Err.mk "Failed to fetch" None None.

(** The block is served and an estimate of 10000 gas, 64 of collateral. *)
Definition query : EthQuery :=
  mkEthQuery (fun _ _ => Normal block) (fun _ => Normal ("0x2710", "0x40")).

(** As [query], with another collateral in the estimate. *)
Definition query_other_storage : EthQuery :=
  mkEthQuery (fun _ _ => Normal block) (fun _ => Normal ("0x2710", "0x80")).

(** The block is served, the estimate rejects. *)
Definition query_failing : EthQuery :=
  mkEthQuery (fun _ _ => Normal block) (fun _ => Throw estimate_error).

(** Nothing is served. *)
Definition query_offline : EthQuery :=
  mkEthQuery (fun _ _ => Throw offline_error) (fun _ => Throw offline_error).

(** A fresh record around the given parameters. *)
Definition fresh (category : string) (p : TxParams) : Heap :=
  mkHeap (mkTxMeta p (Some category) false false false None None None) [].

Definition transfer : Heap :=
  fresh "sentEther" (mkTxParams (Some "0x1abc") None None None).
Definition transfer_with_data : Heap :=
  fresh "sentEther" (mkTxParams (Some "0x1abc") (Some "0xa9059cbb") None None).
Definition deployment : Heap :=
  fresh "contractDeployment" (mkTxParams None (Some "0x6060") None None).
Definition call_with_storage : Heap :=
  fresh "contractInteraction"
    (mkTxParams (Some "0x8abc") (Some "0xa9059cbb") None (Some "0x99")).
Definition fully_specified : Heap :=
  fresh "contractInteraction"
    (mkTxParams (Some "0x8abc") (Some "0xa9059cbb") (Some "0x77") (Some "0x99")).

End Sample.

(** * Properties *)

(** ** Binary64 rounding, as far as [imuln] needs it *)
Module FloatFacts.
Import JsNumber.
Local Open Scope Z_scope.

(** The literals are the binary64 values nearest to [0.9] and [1.5], and
    the operations agree with the hardware ones, here on [3 * 0.9] (which is
    not [2.7]) and on [100663296 / 0x4000000]. *)
#[warnings="-inexact-float"]
Example lit_0_9_nearest : Prim2SF 0.9%float = lit_0_9.
Proof. reflexivity. Qed.

Example lit_1_5_nearest : Prim2SF 1.5%float = lit_1_5.
Proof. reflexivity. Qed.

#[warnings="-inexact-float"]
Example mul_as_hardware :
  Prim2SF (PrimFloat.mul 3%float 0.9%float) = mul (of_int 3) lit_0_9.
Proof. reflexivity. Qed.

Example div_as_hardware :
  Prim2SF (PrimFloat.div 100663296%float 67108864%float)
  = div (of_int 100663296) lit_0x4000000.
Proof. reflexivity. Qed.

Lemma digits2_pos_bounds (p : positive) :
  2 ^ (Zpos (digits2_pos p) - 1) <= Zpos p < 2 ^ Zpos (digits2_pos p).
Proof.
  induction p as [p IH | p IH | ]; cbn [digits2_pos].
  - rewrite Pos2Z.inj_succ.
    replace (Z.succ (Zpos (digits2_pos p)) - 1) with (Z.succ (Zpos (digits2_pos p) - 1)) by lia.
    rewrite !Z.pow_succ_r by lia. lia.
  - rewrite Pos2Z.inj_succ.
    replace (Z.succ (Zpos (digits2_pos p)) - 1) with (Z.succ (Zpos (digits2_pos p) - 1)) by lia.
    rewrite !Z.pow_succ_r by lia. lia.
  - cbn. lia.
Qed.

Lemma digits2_pos_unique (p : positive) (d : Z) :
  2 ^ (d - 1) <= Zpos p < 2 ^ d -> Zpos (digits2_pos p) = d.
Proof.
  intros [Hlo Hhi].
  pose proof (digits2_pos_bounds p) as [Blo Bhi].
  assert (0 < d) as Hd.
  { destruct (Z.ltb_spec 0 d) as [|Hn]; [assumption|].
    assert (d < 0 \/ d = 0) as [Hd | ->] by lia.
    - rewrite (Z.pow_neg_r 2 d) in Hhi by lia. lia.
    - cbn in Hhi. lia. }
  destruct (Z.lt_trichotomy (Zpos (digits2_pos p)) d) as [Hlt | [Heq | Hgt]].
  - assert (2 ^ Zpos (digits2_pos p) <= 2 ^ (d - 1)) by (apply Z.pow_le_mono_r; lia). lia.
  - assumption.
  - assert (2 ^ d <= 2 ^ (Zpos (digits2_pos p) - 1)) by (apply Z.pow_le_mono_r; lia). lia.
Qed.

Lemma iter_pos_nat {A} (f : A -> A) (p : positive) (x : A) :
  iter_pos f p x = Nat.iter (Pos.to_nat p) f x.
Proof.
  revert x. induction p as [p IH | p IH | ]; intro x; cbn [iter_pos].
  - rewrite !IH, Pos2Nat.inj_xI. cbn [Nat.iter Nat.mul].
    rewrite Nat.add_0_r, <- Nat.iter_add. 
    rewrite <- Nat.iter_succ_r. reflexivity.
  - rewrite !IH, Pos2Nat.inj_xO. cbn [Nat.mul]. rewrite Nat.add_0_r, Nat.iter_add. reflexivity.
  - reflexivity.
Qed.

Lemma shr_1_m (mrs : shr_record) :
  0 <= shr_m mrs -> shr_m (shr_1 mrs) = shr_m mrs / 2.
Proof.
  destruct mrs as [m r s]; cbn [shr_m]. intro Hm.
  destruct m as [ | [p | p | ] | p]; cbn [shr_1 shr_m]; try lia; try reflexivity.
  - apply Z.div_unique with (r := 1); lia.
  - apply Z.div_unique with (r := 0); lia.
Qed.

Lemma shr_iter_m (n : nat) (mrs : shr_record) :
  0 <= shr_m mrs ->
  shr_m (Nat.iter n shr_1 mrs) = shr_m mrs / 2 ^ Z.of_nat n.
Proof.
  intro Hm. induction n as [ | n IH].
  - cbn. now rewrite Z.div_1_r.
  - change (Nat.iter (S n) shr_1 mrs) with (shr_1 (Nat.iter n shr_1 mrs)).
    rewrite shr_1_m.
    + rewrite IH, Nat2Z.inj_succ, Z.pow_succ_r by lia.
      rewrite Z.div_div by lia. f_equal. lia.
    + rewrite IH. apply Z.div_pos; lia.
Qed.

Lemma fexp_normal (x : Z) : -1074 <= x - 53 -> fexp prec emax x = x - 53.
Proof. unfold fexp, emin, prec, emax. lia. Qed.

Lemma shr_spec (mrs : shr_record) (e n : Z) :
  0 <= shr_m mrs -> 0 <= n ->
  shr_m (fst (shr mrs e n)) = shr_m mrs / 2 ^ n /\ snd (shr mrs e n) = e + n.
Proof.
  intros Hm Hn. destruct n as [ | p | p]; [ | | lia]; cbn [shr fst snd].
  - rewrite Z.pow_0_r, Z.div_1_r. split; [reflexivity | lia].
  - rewrite iter_pos_nat, shr_iter_m, positive_nat_Z by assumption. now split.
Qed.

Lemma shr_m_of_loc (m : Z) (l : location) : shr_m (shr_record_of_loc m l) = m.
Proof. destruct l as [ | [ | | ]]; reflexivity. Qed.

Lemma round_nearest_even_bounds (mx : Z) (lx : location) :
  mx <= round_nearest_even mx lx <= mx + 1.
Proof.
  destruct lx as [ | [ | | ]]; cbn [round_nearest_even]; try lia.
  destruct (Z.even mx); lia.
Qed.

(** Rounding of a positive mantissa with at least 53 digits, away from the
    subnormal and overflow ranges: the result is a normal number whose
    mantissa is the truncated one or its successor. *)
Lemma binary_round_aux_normal (P : positive) (e : Z) (l : location) :
  53 <= Zpos (digits2_pos P) ->
  -1074 <= e ->
  e + Zpos (digits2_pos P) <= 1000 ->
  exists (m : positive) (k : Z),
    binary_round_aux prec emax false (Zpos P) e l = S754_finite false m (e + k) /\
    2 ^ 52 <= Zpos m < 2 ^ 53 /\
    (k = Zpos (digits2_pos P) - 53 \/ k = Zpos (digits2_pos P) - 52) /\
    Zpos P / 2 ^ k <= Zpos m <= Zpos P / 2 ^ k + 1.
Proof.
  intros Hd He Hmax.
  set (d := Zpos (digits2_pos P)) in *.
  pose proof (digits2_pos_bounds P) as HP. fold d in HP.
  unfold binary_round_aux, shr_fexp.
  cbn [Zdigits2]. fold d.
  rewrite fexp_normal by lia.
  replace (d + e - 53 - e) with (d - 53) by lia.
  destruct (shr_spec (shr_record_of_loc (Zpos P) l) e (d - 53)) as [Hm1 He1];
    [rewrite shr_m_of_loc; lia | lia | ].
  rewrite shr_m_of_loc in Hm1.
  destruct (shr (shr_record_of_loc (Zpos P) l) e (d - 53)) as [mrs' e'].
  cbn [fst snd] in Hm1, He1. subst e'.
  set (q := Zpos P / 2 ^ (d - 53)) in *.
  assert (2 ^ 52 <= q < 2 ^ 53) as Hq.
  { assert (2 ^ (d - 1) = 2 ^ 52 * 2 ^ (d - 53)) as E1
      by (rewrite <- Z.pow_add_r by lia; f_equal; lia).
    assert (2 ^ d = 2 ^ 53 * 2 ^ (d - 53)) as E2
      by (rewrite <- Z.pow_add_r by lia; f_equal; lia).
    assert (0 < 2 ^ (d - 53)) by (apply Z.pow_pos_nonneg; lia).
    unfold q. split.
    - apply Z.div_le_lower_bound; lia.
    - apply Z.div_lt_upper_bound; lia. }
  pose proof (round_nearest_even_bounds (shr_m mrs') (loc_of_shr_record mrs')) as Hr.
  rewrite Hm1 in *.
  assert (q = Zpos P / 2 ^ (d - 53)) as Eq by reflexivity. clearbody q.
  change (2 ^ 52) with 4503599627370496 in Hq.
  change (2 ^ 53) with 9007199254740992 in Hq.
  destruct (round_nearest_even q (loc_of_shr_record mrs')) as [ | p1 | p1];
    [lia | | lia].
  change (2 ^ 52) with 4503599627370496.
  change (2 ^ 53) with 9007199254740992.
  destruct (Z.eq_dec (Zpos p1) 9007199254740992) as [Hof | Hnof].
  - (* the rounded mantissa overflows into a 54th digit *)
    assert (Zpos (digits2_pos p1) = 54) as Hd1
      by (apply digits2_pos_unique; rewrite Hof; cbn; lia).
    cbn [Zdigits2]. rewrite Hd1, fexp_normal by lia.
    replace (54 + (e + (d - 53)) - 53 - (e + (d - 53))) with 1 by lia.
    assert (p1 = 9007199254740992%positive) as -> by lia.
    cbn [shr shr_record_of_loc iter_pos shr_1 shr_m].
    replace (e + (d - 53) + 1 <=? emax - prec) with true
      by (symmetry; apply Z.leb_le; unfold emax, prec; lia).
    exists 4503599627370496%positive, (d - 52).
    assert (Zpos P / 2 ^ (d - 52) = q / 2) as Hhalf.
    { rewrite Eq, Z.div_div by (try apply Z.pow_pos_nonneg; lia).
      f_equal. replace (d - 52) with (Z.succ (d - 53)) by lia.
      rewrite Z.pow_succ_r by lia. lia. }
    split; [f_equal; lia | ].
    split; [lia | ].
    split; [now right | ].
    rewrite Hhalf. clear - Hq Hr.
    pose proof (Z.div_mod q 2 ltac:(lia)). pose proof (Z.mod_pos_bound q 2 ltac:(lia)). lia.
  - assert (Zpos (digits2_pos p1) = 53) as Hd1
      by (apply digits2_pos_unique; cbn; lia).
    cbn [Zdigits2]. rewrite Hd1, fexp_normal by lia.
    replace (53 + (e + (d - 53)) - 53 - (e + (d - 53))) with 0 by lia.
    cbn [shr shr_record_of_loc shr_m].
    replace (e + (d - 53) <=? emax - prec) with true
      by (symmetry; apply Z.leb_le; unfold emax, prec; lia).
    exists p1, (d - 53).
    split; [reflexivity | ].
    split; [lia | ].
    split; [now left | ].
    rewrite <- Eq. lia.
Qed.

(** A mantissa of exactly 53 digits is left as it is. *)
Lemma binary_round_aux_exact (P : positive) (e : Z) :
  Zpos (digits2_pos P) = 53 -> -1074 <= e <= 971 ->
  binary_round_aux prec emax false (Zpos P) e loc_Exact = S754_finite false P e.
Proof.
  intros Hd He.
  unfold binary_round_aux, shr_fexp. cbn [Zdigits2].
  rewrite Hd, fexp_normal by lia.
  replace (53 + e - 53 - e) with 0 by lia.
  cbn [shr shr_record_of_loc shr_m loc_of_shr_record round_nearest_even Zdigits2].
  rewrite Hd, fexp_normal by lia.
  replace (53 + e - 53 - e) with 0 by lia.
  cbn [shr shr_record_of_loc shr_m].
  replace (e <=? emax - prec) with true
    by (symmetry; apply Z.leb_le; unfold emax, prec; lia).
  reflexivity.
Qed.

Lemma iter_xO_mul (p n : positive) :
  Zpos (Pos.iter xO p n) = Zpos p * 2 ^ Zpos n.
Proof.
  induction n as [ | n IH] using Pos.peano_ind.
  - cbn [Pos.iter]. lia.
  - rewrite Pos.iter_succ, Pos2Z.inj_xO, IH, Pos2Z.inj_succ, Z.pow_succ_r by lia. lia.
Qed.

(** The number of a positive integer below [2^53]: the integer itself, with
    its mantissa shifted up to 53 digits. *)
Lemma of_int_shape (w : Z) :
  0 < w < 2 ^ 53 ->
  exists (mx : positive) (s : Z),
    of_int w = S754_finite false mx (- s) /\
    0 <= s <= 52 /\ Zpos mx = w * 2 ^ s /\ Zpos (digits2_pos mx) = 53.
Proof.
  intros [Hlo Hhi]. destruct w as [ | p | p]; try lia.
  pose proof (digits2_pos_bounds p) as HP.
  set (d := Zpos (digits2_pos p)) in *.
  assert (1 <= d <= 53) as Hd.
  { split; [unfold d; lia | ].
    destruct (Z.le_gt_cases d 53) as [ | Hgt]; [assumption | ].
    assert (2 ^ 53 <= 2 ^ (d - 1)) by (apply Z.pow_le_mono_r; lia). lia. }
  unfold of_int, binary_normalize, binary_round.
  fold d. rewrite Z.add_0_r, fexp_normal by lia.
  unfold shl_align. rewrite Z.sub_0_r.
  destruct (d - 53) as [ | n | n] eqn:En; try lia.
  - exists p, 0. rewrite binary_round_aux_exact by (fold d; lia).
    split; [reflexivity | ]. split; [lia | ]. split; [lia | fold d; lia].
  - assert (Zpos (digits2_pos (Pos.iter xO p n)) = 53) as Hd'.
    { apply digits2_pos_unique. rewrite iter_xO_mul.
      change (53 - 1) with 52.
      assert (2 ^ 52 = 2 ^ (d - 1) * 2 ^ Zpos n) as ->
        by (rewrite <- Z.pow_add_r by lia; f_equal; lia).
      assert (2 ^ 53 = 2 ^ d * 2 ^ Zpos n) as ->
        by (rewrite <- Z.pow_add_r by lia; f_equal; lia).
      assert (0 < 2 ^ Zpos n) by (apply Z.pow_pos_nonneg; lia).
      nia. }
    exists (Pos.iter xO p n), (Zpos n).
    rewrite binary_round_aux_exact by (try assumption; lia).
    split; [reflexivity | ]. split; [lia | ]. split; [apply iter_xO_mul | assumption].
Qed.

Lemma lit_0x4000000_eq : lit_0x4000000 = S754_finite false 4503599627370496 (-26).
Proof. reflexivity. Qed.

(** Division by [0x4000000] only moves the exponent. *)
Lemma div_0x4000000 (m : positive) (e : Z) :
  Zpos (digits2_pos m) = 53 -> -1000 <= e <= 900 ->
  div (S754_finite false m e) lit_0x4000000 = S754_finite false m (e - 26).
Proof.
  intros Hd He. rewrite lit_0x4000000_eq.
  unfold div, SFdiv, SFdiv_core_binary. cbn [Zdigits2 xorb].
  rewrite Hd.
  change (Zpos (digits2_pos 4503599627370496)) with 53.
  replace (53 + e - (53 + -26)) with (e + 26) by lia.
  rewrite fexp_normal by lia.
  replace (Z.min (e + 26 - 53) (e - -26)) with (e - 27) by lia.
  replace (e - -26 - (e - 27)) with 53 by lia.
  rewrite Z.shiftl_mul_pow2 by lia.
  assert (Z.div_eucl (Zpos m * 2 ^ 53) 4503599627370496 = (Zpos m~0, 0)) as ->.
  { pose proof (Z.div_eucl_eq (Zpos m * 2 ^ 53) 4503599627370496 ltac:(lia)) as E.
    pose proof (Z.mod_pos_bound (Zpos m * 2 ^ 53) 4503599627370496 ltac:(lia)) as B.
    unfold Z.modulo in B.
    destruct (Z.div_eucl (Zpos m * 2 ^ 53) 4503599627370496) as [q r].
    change (2 ^ 53) with 9007199254740992 in E.
    f_equal; lia. }
  change (new_location 4503599627370496 0) with loc_Exact.
  unfold binary_round_aux, shr_fexp. cbn [Zdigits2 digits2_pos].
  rewrite Pos2Z.inj_succ, Hd, fexp_normal by lia.
  replace (Z.succ 53 + (e - 27) - 53 - (e - 27)) with 1 by lia.
  cbn [shr shr_record_of_loc iter_pos shr_1 shr_m loc_of_shr_record orb].
  cbn [round_nearest_even Zdigits2].
  rewrite Hd, fexp_normal by lia.
  replace (53 + (e - 27 + 1) - 53 - (e - 27 + 1)) with 0 by lia.
  cbn [shr shr_record_of_loc shr_m].
  replace (e - 27 + 1 <=? emax - prec) with true
    by (symmetry; apply Z.leb_le; unfold emax, prec; lia).
  f_equal. lia.
Qed.

Lemma wrap32_small (z : Z) : 0 <= z < 2 ^ 31 -> wrap32 z = z.
Proof.
  intro Hz. unfold wrap32.
  rewrite Z.mod_small by (change (2 ^ 32) with 4294967296; change (2 ^ 31) with 2147483648 in Hz; lia).
  destruct (Z.ltb_spec z (2 ^ 31)); lia.
Qed.

(** The product of a non-zero 26-bit word and a normal number of exponent
    [- B], [52 <= B <= 60]: a normal number again, whose integer part lies
    within the stated bounds of the exact product. *)
Lemma mul_word (w : Z) (M : positive) (B : Z) :
  0 < w < 2 ^ 26 -> 2 ^ 52 <= Zpos M < 2 ^ 53 -> 52 <= B <= 60 ->
  exists (m : positive) (e : Z),
    mul (of_int w) (S754_finite false M (- B)) = S754_finite false m e /\
    Zpos (digits2_pos m) = 53 /\ -200 <= e < 0 /\
    w * Zpos M / 2 ^ B <= Zpos m / 2 ^ (- e) <= (w * Zpos M + 2 ^ 27) / 2 ^ B.
Proof.
  intros Hw HM HB.
  destruct (of_int_shape w) as (mx & s & -> & Hs & Hmx & Hdx);
    [change (2 ^ 53) with 9007199254740992; change (2 ^ 26) with 67108864 in Hw; lia | ].
  pose proof (digits2_pos_bounds mx) as Bx. rewrite Hdx in Bx.
  change (53 - 1) with 52 in Bx.
  assert (27 <= s) as Hs27.
  { destruct (Z.le_gt_cases 27 s) as [ | Hlt]; [assumption | exfalso].
    assert (2 ^ s <= 2 ^ 26) by (apply Z.pow_le_mono_r; lia).
    assert (0 < 2 ^ s) by (apply Z.pow_pos_nonneg; lia).
    assert (w * 2 ^ s < 2 ^ 26 * 2 ^ 26) by nia.
    change (2 ^ 26 * 2 ^ 26) with (2 ^ 52) in *. lia. }
  unfold mul, SFmul. cbn [xorb].
  set (P := (mx * M)%positive).
  pose proof (digits2_pos_bounds P) as BP.
  set (d := Zpos (digits2_pos P)) in *.
  assert (Zpos P = Zpos mx * Zpos M) as EP by (unfold P; lia).
  assert (105 <= d <= 106) as Hd.
  { split.
    - destruct (Z.le_gt_cases 105 d) as [ | Hlt]; [assumption | exfalso].
      assert (2 ^ d <= 2 ^ 104) by (apply Z.pow_le_mono_r; lia).
      assert (2 ^ 52 * 2 ^ 52 <= Zpos mx * Zpos M) by nia.
      change (2 ^ 52 * 2 ^ 52) with (2 ^ 104) in *. lia.
    - destruct (Z.le_gt_cases d 106) as [ | Hgt]; [assumption | exfalso].
      assert (2 ^ 106 <= 2 ^ (d - 1)) by (apply Z.pow_le_mono_r; lia).
      assert (Zpos mx * Zpos M < 2 ^ 53 * 2 ^ 53) by nia.
      change (2 ^ 53 * 2 ^ 53) with (2 ^ 106) in *. lia. }
  destruct (binary_round_aux_normal P (- s + - B) loc_Exact) as (m & k & -> & Hm & Hk & Hmk);
    [fold d; lia | lia | fold d; lia | ].
  fold d in Hk.
  assert (52 <= k <= 54) as Hk' by lia. clear Hk.
  exists m, (- s + - B + k).
  split; [reflexivity | ].
  split; [apply digits2_pos_unique; exact Hm | ].
  split; [lia | ].
  replace (- (- s + - B + k)) with (s + B - k) by lia.
  assert (0 < 2 ^ s) by (apply Z.pow_pos_nonneg; lia).
  assert (0 < 2 ^ B) by (apply Z.pow_pos_nonneg; lia).
  assert (0 < 2 ^ k) by (apply Z.pow_pos_nonneg; lia).
  assert (0 < 2 ^ (s + B - k)) by (apply Z.pow_pos_nonneg; lia).
  assert (2 ^ k * 2 ^ (s + B - k) = 2 ^ s * 2 ^ B) as Epow
    by (rewrite <- !Z.pow_add_r by lia; f_equal; lia).
  assert (w * Zpos M / 2 ^ B = Zpos P / (2 ^ k * 2 ^ (s + B - k))) as Elow.
  { rewrite Epow, EP, Hmx.
    replace (w * 2 ^ s * Zpos M) with (w * Zpos M * 2 ^ s) by lia.
    rewrite (Z.mul_comm (2 ^ s) (2 ^ B)), Z.div_mul_cancel_r by lia. reflexivity. }
  split.
  - rewrite Elow, <- Z.div_div by lia.
    apply Z.div_le_mono; lia.
  - assert (Zpos m / 2 ^ (s + B - k) = Zpos m * 2 ^ k / (2 ^ s * 2 ^ B)) as ->.
    { rewrite <- Epow, (Z.mul_comm (2 ^ k)), Z.div_mul_cancel_r by lia. reflexivity. }
    assert ((w * Zpos M + 2 ^ 27) / 2 ^ B
            = (Zpos P + 2 ^ 27 * 2 ^ s) / (2 ^ s * 2 ^ B)) as ->.
    { rewrite EP, Hmx.
      replace (w * 2 ^ s * Zpos M + 2 ^ 27 * 2 ^ s) with ((w * Zpos M + 2 ^ 27) * 2 ^ s) by lia.
      rewrite (Z.mul_comm (2 ^ s) (2 ^ B)), Z.div_mul_cancel_r by lia. reflexivity. }
    apply Z.div_le_mono; [lia | ].
    assert (2 ^ k <= 2 ^ 27 * 2 ^ s)
      by (rewrite <- Z.pow_add_r by lia; apply Z.pow_le_mono_r; lia).
    assert (Zpos P / 2 ^ k * 2 ^ k <= Zpos P)
      by (rewrite Z.mul_comm; apply Z.mul_div_le; lia).
    nia.
Qed.

Lemma word_mask_ones : BN.word_mask = Z.ones 26.
Proof. reflexivity. Qed.

(** For a normal product below [2^31] the two conversions of the loop
    split the integer part [T] of the product: [w & 0x3ffffff] is
    [T mod 2^26] and [(w / 0x4000000) | 0] is [T / 2^26]. *)
Lemma product_split (num : number) (w : Z) (m : positive) (e : Z) :
  0 <= w < 2 ^ 26 ->
  mul (of_int w) num = S754_finite false m e ->
  Zpos (digits2_pos m) = 53 -> -200 <= e < 0 ->
  Zpos m / 2 ^ (- e) < 2 ^ 31 ->
  Z.land (ToInt32 (mul (of_int (wrap32 w)) num)) BN.word_mask
    = (Zpos m / 2 ^ (- e)) mod 2 ^ 26 /\
  ToInt32 (div (mul (of_int (wrap32 w)) num) lit_0x4000000)
    = (Zpos m / 2 ^ (- e)) / 2 ^ 26.
Proof.
  intros Hw Hmul Hd He HT.
  assert (0 < 2 ^ (- e)) by (apply Z.pow_pos_nonneg; lia).
  assert (0 <= Zpos m / 2 ^ (- e)) as HT0 by (apply Z.div_pos; lia).
  rewrite wrap32_small by (change (2 ^ 26) with 67108864 in Hw; change (2 ^ 31) with 2147483648; lia).
  rewrite Hmul, div_0x4000000 by (try assumption; lia).
  unfold ToInt32, trunc.
  destruct (Z.leb_spec 0 e) as [ | _]; [lia | ].
  destruct (Z.leb_spec 0 (e - 26)) as [ | _]; [lia | ].
  replace (- (e - 26)) with (- e + 26) by lia.
  rewrite Z.pow_add_r, <- Z.div_div by lia.
  set (T := Zpos m / 2 ^ (- e)) in *.
  assert (0 <= T / 2 ^ 26 < 2 ^ 31) as HD.
  { split; [apply Z.div_pos; lia | ].
    apply Z.div_lt_upper_bound; [lia | ]. change (2 ^ 26) with 67108864.
    change (2 ^ 31) with 2147483648 in *. lia. }
  rewrite !wrap32_small by lia.
  rewrite word_mask_ones, Z.land_ones by lia.
  split; reflexivity.
Qed.

(** One word times [0.9]: nine tenths of the word, rounded down, and
    nothing to carry. *)
Lemma product_0_9 (w : Z) :
  0 <= w < 2 ^ 26 ->
  Z.land (ToInt32 (mul (of_int (wrap32 w)) lit_0_9)) BN.word_mask = w * 9 / 10 /\
  ToInt32 (div (mul (of_int (wrap32 w)) lit_0_9) lit_0x4000000) = 0.
Proof.
  intro Hw. destruct (Z.eq_dec w 0) as [-> | Hnz]; [split; reflexivity | ].
  change (2 ^ 26) with 67108864 in Hw.
  destruct (mul_word w 8106479329266893 53) as (m & e & Hmul & Hd & He & Hlo & Hhi);
    [change (2 ^ 26) with 67108864; lia | cbn; lia | lia | ].
  change (S754_finite false 8106479329266893 (- 53)) with lit_0_9 in Hmul.
  change (2 ^ 53) with 9007199254740992 in Hlo, Hhi.
  change (2 ^ 27) with 134217728 in Hhi.
  assert (Zpos m / 2 ^ (- e) = w * 9 / 10) as HT.
  { revert Hlo Hhi. generalize (Zpos m / 2 ^ (- e)). intros T Hlo Hhi.
    Z.div_mod_to_equations. lia. }
  destruct (product_split lit_0_9 w m e) as [Hland Hdiv];
    try assumption; try (change (2 ^ 26) with 67108864; lia).
  { rewrite HT. change (2 ^ 31) with 2147483648. Z.div_mod_to_equations. lia. }
  rewrite Hland, Hdiv, HT. change (2 ^ 26) with 67108864.
  split; Z.div_mod_to_equations; lia.
Qed.

(** One word times [1.5]: three halves of the word, rounded down, of which
    the part from [2^26] on is carried. *)
Lemma product_1_5 (w : Z) :
  0 <= w < 2 ^ 26 ->
  Z.land (ToInt32 (mul (of_int (wrap32 w)) lit_1_5)) BN.word_mask
    = (w * 3 / 2) mod 2 ^ 26 /\
  ToInt32 (div (mul (of_int (wrap32 w)) lit_1_5) lit_0x4000000) = (w * 3 / 2) / 2 ^ 26.
Proof.
  intro Hw. destruct (Z.eq_dec w 0) as [-> | Hnz]; [split; reflexivity | ].
  change (2 ^ 26) with 67108864 in Hw.
  destruct (mul_word w 6755399441055744 52) as (m & e & Hmul & Hd & He & Hlo & Hhi);
    [change (2 ^ 26) with 67108864; lia | cbn; lia | lia | ].
  change (S754_finite false 6755399441055744 (- 52)) with lit_1_5 in Hmul.
  change (2 ^ 52) with 4503599627370496 in Hlo, Hhi.
  change (2 ^ 27) with 134217728 in Hhi.
  assert (Zpos m / 2 ^ (- e) = w * 3 / 2) as HT.
  { revert Hlo Hhi. generalize (Zpos m / 2 ^ (- e)). intros T Hlo Hhi.
    Z.div_mod_to_equations. lia. }
  destruct (product_split lit_1_5 w m e) as [Hland Hdiv];
    try assumption; try (change (2 ^ 26) with 67108864; lia).
  { rewrite HT. change (2 ^ 31) with 2147483648. Z.div_mod_to_equations. lia. }
  rewrite Hland, Hdiv, HT. split; reflexivity.
Qed.

Lemma limb_0_9 (w : Z) : 0 <= w < 2 ^ 26 -> BN.limb lit_0_9 w = w * 9 / 10.
Proof.
  intro Hw. unfold BN.limb. destruct (product_0_9 w Hw) as [-> ->]. lia.
Qed.

Lemma limb_1_5 (w : Z) : 0 <= w < 2 ^ 26 -> BN.limb lit_1_5 w = w * 3 / 2.
Proof.
  intro Hw. unfold BN.limb. destruct (product_1_5 w Hw) as [-> ->].
  pose proof (Z.div_mod (w * 3 / 2) (2 ^ 26) ltac:(lia)). lia.
Qed.

End FloatFacts.

(** ** [muln] word by word *)
Module BNFacts.
Import JsNumber BN.
Local Open Scope Z_scope.

Lemma value_app (ws : list Z) (c : Z) :
  value (ws ++ [c])%list = value ws + 2 ^ (26 * Z.of_nat (List.length ws)) * c.
Proof.
  induction ws as [ | w ws IH]; cbn [app value List.length].
  - change (26 * Z.of_nat 0) with 0. rewrite Z.pow_0_r. lia.
  - rewrite IH, Nat2Z.inj_succ.
    replace (26 * Z.succ (Z.of_nat (List.length ws))) with (26 + 26 * Z.of_nat (List.length ws)) by lia.
    rewrite Z.pow_add_r by lia. lia.
Qed.

(** The loop adds up what the words contribute, whatever [num] is. *)
Lemma imuln_loop_value (num : number) (ws : list Z) :
  forall carry : Z,
    List.length (fst (imuln_loop num ws carry)) = List.length ws /\
    value (fst (imuln_loop num ws carry))
      + 2 ^ (26 * Z.of_nat (List.length ws)) * snd (imuln_loop num ws carry)
    = carry + value (map (limb num) ws).
Proof.
  induction ws as [ | wi rest IH]; intro carry.
  - cbn [imuln_loop fst snd map value List.length].
    change (26 * Z.of_nat 0) with 0. rewrite Z.pow_0_r. split; [reflexivity | lia].
  - cbn [imuln_loop].
    set (w := mul (of_int (wrap32 wi)) num).
    set (lo := Z.land (ToInt32 w) word_mask + Z.land carry word_mask).
    set (carry1 := Z.shiftr carry 26 + ToInt32 (div w lit_0x4000000) + ushiftr lo 26).
    specialize (IH carry1). destruct IH as [IHl IHv].
    destruct (imuln_loop num rest carry1) as [rest' carry'].
    cbn [fst snd List.length map value] in *.
    split; [now rewrite IHl | ].
    rewrite Nat2Z.inj_succ.
    replace (26 * Z.succ (Z.of_nat (List.length rest))) with (26 + 26 * Z.of_nat (List.length rest)) by lia.
    rewrite Z.pow_add_r by lia.
    assert (0 <= Z.land (ToInt32 w) word_mask < 2 ^ 26) as Ha
      by (rewrite FloatFacts.word_mask_ones, Z.land_ones by lia; apply Z.mod_pos_bound; lia).
    assert (0 <= Z.land carry word_mask < 2 ^ 26) as Hc
      by (rewrite FloatFacts.word_mask_ones, Z.land_ones by lia; apply Z.mod_pos_bound; lia).
    assert (Z.land carry word_mask + 2 ^ 26 * Z.shiftr carry 26 = carry) as Ecarry.
    { rewrite FloatFacts.word_mask_ones, Z.land_ones, Z.shiftr_div_pow2 by lia.
      pose proof (Z.div_mod carry (2 ^ 26) ltac:(lia)). lia. }
    assert (Z.land lo word_mask + 2 ^ 26 * ushiftr lo 26 = lo) as Elo.
    { unfold ushiftr.
      rewrite Z.mod_small by (change (2 ^ 32) with 4294967296; change (2 ^ 26) with 67108864 in *; lia).
      rewrite FloatFacts.word_mask_ones, Z.land_ones, Z.shiftr_div_pow2 by lia.
      pose proof (Z.div_mod lo (2 ^ 26) ltac:(lia)). lia. }
    assert (limb num wi
            = Z.land (ToInt32 w) word_mask + 2 ^ 26 * ToInt32 (div w lit_0x4000000)) as ->
      by reflexivity.
    assert (value rest' + 2 ^ (26 * Z.of_nat (List.length rest)) * carry'
            = carry1 + value (map (limb num) rest)) as E by exact IHv.
    unfold carry1 in E. unfold lo in Elo at 3.
    rewrite <- Z.mul_assoc.
    set (X := 2 ^ (26 * Z.of_nat (List.length rest)) * carry') in *.
    change (2 ^ 26) with 67108864 in *. lia.
Qed.

(** The value of [muln (num)]: every word is multiplied and truncated on its
    own. *)
Lemma muln_value (x : BN.t) (num : number) :
  value (muln x num) = value (map (limb num) x).
Proof.
  unfold muln, imuln.
  destruct (imuln_loop_value num x 0) as [Hl Hv].
  destruct (imuln_loop num x 0) as [ws' carry]. cbn [fst snd] in *.
  destruct (Z.eqb_spec carry 0) as [-> | _].
  - lia.
  - rewrite value_app, Hl. lia.
Qed.

Lemma map_limb_ext (num : number) (f : Z -> Z) (ws : list Z) :
  (forall w, is_word w -> limb num w = f w) ->
  Forall is_word ws -> map (limb num) ws = map f ws.
Proof.
  intros Hf. induction 1 as [ | w ws Hw _ IH]; cbn [map]; [reflexivity | ].
  now rewrite IH, Hf.
Qed.

(** In general, then, [muln (0.9)] and [muln (1.5)] scale the words one by
    one and lose the fraction of each. *)
Lemma muln_0_9_value (x : BN.t) :
  Forall is_word x -> value (muln x lit_0_9) = value (map (fun w => w * 9 / 10) x).
Proof.
  intro Hx. rewrite muln_value. f_equal.
  apply map_limb_ext; [ | assumption]. intros w Hw. now apply FloatFacts.limb_0_9.
Qed.

Lemma muln_1_5_value (x : BN.t) :
  Forall is_word x -> value (muln x lit_1_5) = value (map (fun w => w * 3 / 2) x).
Proof.
  intro Hx. rewrite muln_value. f_equal.
  apply map_limb_ext; [ | assumption]. intros w Hw. now apply FloatFacts.limb_1_5.
Qed.

Lemma to_words_spec (fuel : nat) :
  forall n : Z, 0 <= n < 2 ^ (26 * Z.of_nat fuel) ->
    value (to_words fuel n) = n /\ Forall is_word (to_words fuel n).
Proof.
  induction fuel as [ | fuel IH]; intros n Hn.
  - cbn in Hn. cbn. split; [lia | constructor].
  - cbn [to_words]. destruct (Z.ltb_spec n (2 ^ 26)) as [Hlt | Hge].
    + cbn [value]. split; [lia | ]. repeat constructor; unfold is_word; lia.
    + rewrite Nat2Z.inj_succ in Hn.
      replace (26 * Z.succ (Z.of_nat fuel)) with (26 + 26 * Z.of_nat fuel) in Hn by lia.
      rewrite Z.pow_add_r in Hn by lia.
      destruct (IH (n / 2 ^ 26)) as [Hv Hf].
      { split; [apply Z.div_pos; lia | apply Z.div_lt_upper_bound; lia]. }
      cbn [value]. rewrite Hv. split.
      * pose proof (Z.div_mod n (2 ^ 26) ltac:(lia)). lia.
      * constructor; [ | assumption]. unfold is_word. apply Z.mod_pos_bound. lia.
Qed.

(** The fuel of [words] is enough: the words are those of the value. *)
Lemma value_words (n : Z) :
  0 <= n -> value (words n) = n /\ Forall is_word (words n).
Proof.
  intro Hn. apply to_words_spec. split; [assumption | ].
  rewrite Nat2Z.inj_succ, Z2Nat.id by apply Z.log2_nonneg.
  destruct (Z.eq_dec n 0) as [-> | Hnz].
  - cbn. lia.
  - pose proof (Z.log2_spec n ltac:(lia)) as [_ Hhi].
    assert (2 ^ Z.succ (Z.log2 n) <= 2 ^ (26 * Z.succ (Z.log2 n)))
      by (apply Z.pow_le_mono_r; pose proof (Z.log2_nonneg n); lia).
    lia.
Qed.

Lemma words_single (n : Z) : 0 <= n < 2 ^ 26 -> words n = [n].
Proof.
  intro Hn. unfold words. cbn [to_words].
  destruct (Z.ltb_spec n (2 ^ 26)); [reflexivity | lia].
Qed.

Lemma first_word (a : Z) :
  0 <= a < 2 ^ 26 ->
  Z.land (a + Z.land 0 word_mask) word_mask = a /\
  ushiftr (a + Z.land 0 word_mask) 26 = 0.
Proof.
  intro Ha. change (Z.land 0 word_mask) with 0. rewrite Z.add_0_r. unfold ushiftr.
  rewrite (Z.mod_small a (2 ^ 32))
    by (change (2 ^ 32) with 4294967296; change (2 ^ 26) with 67108864 in Ha; lia).
  rewrite Z.shiftr_div_pow2, Z.div_small by lia.
  rewrite FloatFacts.word_mask_ones, Z.land_ones, Z.mod_small by lia.
  split; reflexivity.
Qed.

(** A number of one word: the two multipliers are exact, and [muln (1.5)]
    grows a second word once the product reaches [2^26]. *)
Lemma muln_0_9_single (x : Z) : is_word x -> muln [x] lit_0_9 = [x * 9 / 10].
Proof.
  intro Hx. unfold muln, imuln. cbn [imuln_loop].
  destruct (FloatFacts.product_0_9 x Hx) as [-> ->].
  assert (0 <= x * 9 / 10 < 2 ^ 26) as HT
    by (unfold is_word in Hx; change (2 ^ 26) with 67108864 in *; Z.div_mod_to_equations; lia).
  destruct (first_word _ HT) as [-> ->]. reflexivity.
Qed.

Lemma muln_1_5_single (x : Z) :
  is_word x ->
  muln [x] lit_1_5 =
  if x * 3 / 2 <? 2 ^ 26 then [x * 3 / 2] else [x * 3 / 2 - 2 ^ 26; 1].
Proof.
  intro Hx. unfold muln, imuln. cbn [imuln_loop].
  destruct (FloatFacts.product_1_5 x Hx) as [-> ->].
  assert (0 <= x * 3 / 2 < 2 * 2 ^ 26) as HT
    by (unfold is_word in Hx; change (2 ^ 26) with 67108864 in *; Z.div_mod_to_equations; lia).
  set (T := x * 3 / 2) in *.
  destruct (first_word (T mod 2 ^ 26)) as [-> ->]; [apply Z.mod_pos_bound; lia | ].
  change (Z.shiftr 0 26) with 0. rewrite Z.add_0_l, Z.add_0_r.
  destruct (Z.ltb_spec T (2 ^ 26)) as [Hlt | Hge].
  - rewrite Z.div_small, Z.mod_small by lia. reflexivity.
  - assert (T / 2 ^ 26 = 1) as ->
      by (symmetry; apply Z.div_unique with (r := T - 2 ^ 26); lia).
    assert (T mod 2 ^ 26 = T - 2 ^ 26) as ->
      by (symmetry; apply Z.mod_unique with (q := 1); lia).
    reflexivity.
Qed.

(** Numbers of one word compare as their values do. *)
Lemma gt_single (x y : Z) : is_word x -> is_word y -> gt [x] [y] = (y <? x).
Proof.
  unfold is_word. change (2 ^ 26) with 67108864. intros Hx Hy.
  unfold gt, cmp, ucmp. cbn [List.length Nat.ltb Nat.leb rev app ucmp_words].
  rewrite !FloatFacts.wrap32_small by (change (2 ^ 31) with 2147483648; lia).
  destruct (Z.eqb_spec x y), (Z.ltb_spec x y), (Z.ltb_spec y x); try lia; reflexivity.
Qed.

Lemma lt_single (x y : Z) : is_word x -> is_word y -> lt [x] [y] = (x <? y).
Proof.
  unfold is_word. change (2 ^ 26) with 67108864. intros Hx Hy.
  unfold lt, cmp, ucmp. cbn [List.length Nat.ltb Nat.leb rev app ucmp_words].
  rewrite !FloatFacts.wrap32_small by (change (2 ^ 31) with 2147483648; lia).
  destruct (Z.eqb_spec x y), (Z.ltb_spec x y); try lia; reflexivity.
Qed.

End BNFacts.

(** ** Hex strings *)
Module HexFacts.
Local Open Scope string_scope.

Lemma substring_full (s : string) : substring 0 (String.length s) s = s.
Proof. induction s as [ | c s IH]; cbn; [reflexivity | now rewrite IH]. Qed.

Lemma stripHexPrefix_0x (rest : string) :
  stripHexPrefix (String "0" (String "x" rest)) = rest.
Proof.
  unfold stripHexPrefix, isHexPrefixed. cbn [String.prefix].
  destruct (ascii_dec "0" "0") as [_ | N]; [ | now destruct N].
  destruct (ascii_dec "x" "x") as [_ | N]; [ | now destruct N].
  replace (String.prefix "" rest) with true by (destruct rest; reflexivity).
  cbn [String.length Nat.sub substring]. rewrite Nat.sub_0_r. apply substring_full.
Qed.

Lemma hexToBn_words (s : string) : hexToBn s = BN.words (hexValue s).
Proof.
  unfold hexValue, hexToBn.
  now rewrite (proj1 (BNFacts.value_words _ (N2Z.is_nonneg _))).
Qed.

Lemma hexValue_nonneg (s : string) : (0 <= hexValue s)%Z.
Proof.
  unfold hexValue, hexToBn.
  rewrite (proj1 (BNFacts.value_words _ (N2Z.is_nonneg _))). lia.
Qed.

(** The round trip that section 2 of the specification asks for. *)
Lemma hexValue_bnToHex (bn : BN.t) :
  (0 <= BN.value bn)%Z -> hexValue (bnToHex bn) = BN.value bn.
Proof.
  intro Hn. unfold hexValue, hexToBn, bnToHex.
  pose proof (HexString.to_N_of_N (Z.to_N (BN.value bn))) as E.
  assert (Z.of_N (HexString.Raw.to_N
                    (stripHexPrefix (HexString.of_N (Z.to_N (BN.value bn)))) 0%N)
          = BN.value bn) as ->.
  { destruct (Z.to_N (BN.value bn)) as [ | p] eqn:En.
    - cbn. lia.
    - cbn [HexString.of_N] in *. unfold HexString.of_pos in *.
      rewrite stripHexPrefix_0x. cbn in E. rewrite E. lia. }
  exact (proj1 (BNFacts.value_words _ Hn)).
Qed.

Lemma hexValue_fraction (hex : string) (n d : Z) :
  (0 <= n)%Z -> (0 < d)%Z ->
  hexValue (bnToHex (BnMultiplyByFraction (hexToBn hex) n d)) = (hexValue hex * n / d)%Z.
Proof.
  intros Hn Hd. pose proof (hexValue_nonneg hex) as Hh.
  assert (0 <= hexValue hex * n / d)%Z as Hq by (apply Z.div_pos; nia).
  rewrite hexValue_bnToHex; unfold BnMultiplyByFraction; fold (hexValue hex);
    rewrite (proj1 (BNFacts.value_words _ Hq)); [reflexivity | exact Hq].
Qed.

End HexFacts.

(** ** The buffer calculator *)
Module BufferFacts.
Import JsNumber.
Local Open Scope Z_scope.

(** While both values fit in one 26-bit word, the code computes the buffer
    of section 4.3. *)
Lemma addGasBuffer_single_word (i b : string) :
  hexValue i < 2 ^ 26 -> hexValue b < 2 ^ 26 ->
  hexValue (addGasBuffer i b) = spec_buffer (hexValue i) (hexValue b).
Proof.
  intros Hi Hb.
  pose proof (HexFacts.hexValue_nonneg i) as Hi0.
  pose proof (HexFacts.hexValue_nonneg b) as Hb0.
  unfold addGasBuffer, spec_buffer. cbv zeta.
  rewrite (HexFacts.hexToBn_words i), (HexFacts.hexToBn_words b).
  rewrite !BNFacts.words_single by lia.
  set (x := hexValue i) in *. set (y := hexValue b) in *.
  assert (BN.is_word x) as Wx by (unfold BN.is_word; lia).
  assert (BN.is_word y) as Wy by (unfold BN.is_word; lia).
  assert (BN.is_word (y * 9 / 10)) as Wu
    by (unfold BN.is_word; change (2 ^ 26) with 67108864 in *; Z.div_mod_to_equations; lia).
  assert (0 <= x * 3 / 2) as HT by (Z.div_mod_to_equations; lia).
  rewrite BNFacts.muln_0_9_single, BNFacts.muln_1_5_single by assumption.
  rewrite BNFacts.gt_single by assumption.
  destruct (Z.ltb_spec (y * 9 / 10) x) as [H1 | H1].
  - rewrite HexFacts.hexValue_bnToHex; cbn [BN.value]; lia.
  - destruct (Z.ltb_spec (x * 3 / 2) (2 ^ 26)) as [H2 | H2].
    + rewrite BNFacts.lt_single by (try assumption; unfold BN.is_word; lia).
      destruct (Z.ltb_spec (x * 3 / 2) (y * 9 / 10));
        rewrite HexFacts.hexValue_bnToHex; cbn [BN.value]; unfold BN.is_word in *; lia.
    + replace (BN.lt [x * 3 / 2 - 2 ^ 26; 1] [y * 9 / 10]) with false by reflexivity.
      destruct (Z.ltb_spec (x * 3 / 2) (y * 9 / 10)) as [H3 | H3];
        [unfold BN.is_word in Wu; lia | ].
      rewrite HexFacts.hexValue_bnToHex; cbn [BN.value]; unfold BN.is_word in *; lia.
Qed.

End BufferFacts.

(** C1. The claim: [addGasBuffer] returns the buffer of section 4.3, computed
    on exact integers with no floating-point rounding.  The code multiplies
    by the numbers [0.9] and [1.5] through [muln], one 26-bit word at a
    time.  For a block gas limit of 3000000000 ([0xb2d05e00], two words) the
    upper limit comes out as 2659734681 where nine tenths are 2700000000,
    and an estimate of 67108864 ([0x4000000], words [0] and [1]) is returned
    as it is, where section 4.3 gives its three halves, 100663296. *)
Theorem addGasBuffer_two_words_inexact :
  addGasBuffer "0x4000000" "0xb2d05e00" = "0x4000000" /\
  hexValue (addGasBuffer "0x4000000" "0xb2d05e00") = 67108864%Z /\
  spec_buffer (hexValue "0x4000000") (hexValue "0xb2d05e00") = 100663296%Z /\
  BN.value (BN.muln (hexToBn "0xb2d05e00") JsNumber.lit_0_9) = 2659734681%Z /\
  (hexValue "0xb2d05e00" * 9 / 10 = 2700000000)%Z /\
  BN.muln (hexToBn "0x4000000") JsNumber.lit_1_5 = hexToBn "0x4000000".
Proof. repeat split; vm_compute; reflexivity. Qed.

(** C8. The claim: buffering never reduces a value below the input, never
    exceeds [upper] unless the input did, and is stationary from [upper] on.
    For a block gas limit of 100000000 ([0x5f5e100], words [32891136] and
    [1]) [muln (0.9)] leaves the words [29602022] and [0]; the estimate
    50000000 ([0x2faf080], one word) is shorter and so not [gt], its buffer
    75000000 has two words with a larger top word and so is not [lt], and
    the code returns the upper limit, 29602022: less than the input, though
    the input is below nine tenths of the block gas limit, 90000000.  By the
    same comparison of lengths an estimate of 44000000 under a block gas
    limit of 67108864 is buffered to 66000000, above nine tenths of that
    limit, 60397977, which the input did not exceed. *)
Theorem addGasBuffer_below_input :
  hexValue (addGasBuffer "0x2faf080" "0x5f5e100") = 29602022%Z /\
  hexValue (addGasBuffer "0x29f6300" "0x4000000") = 66000000%Z /\
  hexValue "0x29f6300" = 44000000%Z /\
  (hexValue "0x4000000" * 9 / 10 = 60397977)%Z /\
  hexValue "0x2faf080" = 50000000%Z /\
  (hexValue "0x5f5e100" * 9 / 10 = 90000000)%Z /\
  spec_buffer (hexValue "0x2faf080") (hexValue "0x5f5e100") = 75000000%Z /\
  BN.muln (hexToBn "0x5f5e100") JsNumber.lit_0_9 = [29602022; 0]%Z /\
  BN.muln (hexToBn "0x2faf080") JsNumber.lit_1_5 = [7891136; 1]%Z /\
  BN.gt (hexToBn "0x2faf080") (BN.muln (hexToBn "0x5f5e100") JsNumber.lit_0_9) = false /\
  BN.lt (BN.muln (hexToBn "0x2faf080") JsNumber.lit_1_5)
        (BN.muln (hexToBn "0x5f5e100") JsNumber.lit_0_9) = false.
Proof. repeat split; vm_compute; reflexivity. Qed.

(** ** The estimator and the metadata writer *)

Local Open Scope string_scope.

Ltac run :=
  unfold analyzeGasUsage, estimateTxGasAndCollateral, setTxGas, when;
  unfold await_getBlockByNumber, await_estimateGas, try_catch, bind, ret, throw, read,
    mutateParams;
  unfold mutate, fetched, failure_record, set_gas, set_storageLimit, set_txParams,
    set_simpleSend, set_gasLimitSpecified, set_storageLimitSpecified, set_estimatedGas,
    set_estimatedStorage, set_simulationFails, to_is_plain_account;
  cbn [Boolean strict_eq meta requests txParams transactionCategory simpleSend
       gasLimitSpecified storageLimitSpecified estimatedGas estimatedStorage
       simulationFails to data gas storageLimit negb andb orb fst snd destructure
       Err.message Err.errorKey Err.getCodeResponse].

Ltac open_heap h :=
  destruct h as [[[to0 data0 gas0 storageLimit0] category0 simpleSend0 gasLimitSpecified0
                  storageLimitSpecified0 estimatedGas0 estimatedStorage0 simulationFails0]
                 requests0];
  cbn [meta requests txParams transactionCategory simpleSend gasLimitSpecified
       storageLimitSpecified estimatedGas estimatedStorage simulationFails
       to data gas storageLimit] in *.

Ltac atom_of b :=
  match b with
  | negb ?x => atom_of x
  | andb ?x _ => atom_of x
  | orb ?x _ => atom_of x
  | _ => b
  end.

Ltac branches :=
  repeat (run;
          match goal with
          | H : ?x = true |- context [?x] => rewrite H
          | H : ?x = false |- context [?x] => rewrite H
          | H : ?x = Normal _ |- context [?x] => rewrite H
          | H : ?x = Throw _ |- context [?x] => rewrite H
          | |- context [if ?b then _ else _] =>
              let a := atom_of b in
              let E := fresh "E" in destruct a eqn:E
          | |- context [match ?x with Normal _ => _ | Throw _ => _ end] =>
              let E := fresh "E" in destruct x eqn:E
          | |- context [let '(_, _) := ?x in _] =>
              let E := fresh "E" in destruct x eqn:E
          end).

Section Estimator.

Variable SEND_ETHER_ACTION_KEY : string.
Variable TRANSACTION_NO_CONTRACT_ERROR_KEY : string.
Variable isValidContractAddress : string -> bool.

Local Abbreviation estimate_with :=
  (estimateTxGasAndCollateral SEND_ETHER_ACTION_KEY TRANSACTION_NO_CONTRACT_ERROR_KEY
     isValidContractAddress).
Local Abbreviation analyze_with :=
  (analyzeGasUsage SEND_ETHER_ACTION_KEY TRANSACTION_NO_CONTRACT_ERROR_KEY
     isValidContractAddress).
Local Abbreviation failure := (failure_record TRANSACTION_NO_CONTRACT_ERROR_KEY).

Section Adapter.

Variable query : EthQuery.

Local Abbreviation estimate := (estimate_with query).
Local Abbreviation analyze := (analyze_with query).

(** [analyzeGasUsage] when the block request rejects. *)
Lemma analyze_block_rejected (getCodeResponse : option string) (h : Heap) (e : Err.t) :
  getBlockByNumber query "latest" false = Throw e ->
  analyze getCodeResponse h = (Throw e, fetched h).
Proof. intro Hb. run. rewrite Hb. reflexivity. Qed.

(** [analyzeGasUsage] when the block request settles: the estimator runs, and
    either its result goes to [setTxGas] or its error into [simulationFails]. *)
Lemma analyze_block_settled (getCodeResponse : option string) (h : Heap) (block : Block) :
  getBlockByNumber query "latest" false = Normal block ->
  analyze getCodeResponse h =
  match estimate (gasLimit block) getCodeResponse (fetched h) with
  | (Normal v, h1) =>
      setTxGas (gasLimit block) (fst (destructure v)) (snd (destructure v)) h1
  | (Throw err, h1) =>
      (Normal tt, mkHeap (set_simulationFails (Some (failure block err)) (meta h1))
                         (requests h1))
  end.
Proof.
  intro Hb. unfold analyzeGasUsage, bind at 1, await_getBlockByNumber. rewrite Hb.
  unfold bind at 1, try_catch, bind at 1. fold (fetched h).
  destruct (estimate (gasLimit block) getCodeResponse (fetched h)) as [[v | err] h1].
  - unfold ret. destruct (destructure v) as [g s]. reflexivity.
  - unfold failure_record, bind, mutate, when, ret.
    destruct (strict_eq (Err.errorKey err) TRANSACTION_NO_CONTRACT_ERROR_KEY); reflexivity.
Qed.

(** C3. When [params.gas] and [params.storageLimit] are both non-empty
    before estimation, [estimateTxGasAndCollateral] returns exactly the pair
    [{ gasUsed: params.gas, storageCollateralized: params.storageLimit }],
    makes no network request and computes no fallback (the parameters stay
    as they were); and in the record that [analyzeGasUsage] finalizes both
    values are unchanged, the block request being the only one made. *)
Theorem short_circuit_returns_caller_pair
    (blockGasLimitHex : string) (getCodeResponse : option string) (h : Heap) :
  Boolean (gas (txParams (meta h))) = true ->
  Boolean (storageLimit (txParams (meta h))) = true ->
  (exists h1,
      estimate blockGasLimitHex getCodeResponse h =
        (Normal (VObject (gas (txParams (meta h))) (storageLimit (txParams (meta h)))), h1) /\
      requests h1 = requests h /\
      txParams (meta h1) = txParams (meta h)) /\
  (forall block, getBlockByNumber query "latest" false = Normal block ->
     exists h2,
       analyze getCodeResponse h = (Normal tt, h2) /\
       requests h2 = (requests h ++ [GetBlockByNumber "latest" false])%list /\
       gas (txParams (meta h2)) = gas (txParams (meta h)) /\
       storageLimit (txParams (meta h2)) = storageLimit (txParams (meta h))).
Proof.
  intros Hgas Hstorage. split.
  - open_heap h. branches; eexists; repeat split.
  - intros block Hb. rewrite (analyze_block_settled _ _ _ Hb).
    open_heap h. branches; eexists; repeat split.
Qed.

(** What every run of the estimator leaves in the record, whether it returns
    or throws. *)
Lemma estimate_bookkeeping
    (blockGasLimitHex : string) (getCodeResponse : option string) (h h1 : Heap)
    (r : Completion JsValue) :
  estimate blockGasLimitHex getCodeResponse h = (r, h1) ->
  storageLimitSpecified (meta h1) = true /\
  gasLimitSpecified (meta h1) = Boolean (gas (txParams (meta h))) /\
  storageLimit (txParams (meta h1)) =
    (if Boolean (storageLimit (txParams (meta h)))
     then storageLimit (txParams (meta h)) else Some SIMPLE_STORAGE_COST) /\
  estimatedGas (meta h1) = estimatedGas (meta h) /\
  estimatedStorage (meta h1) = estimatedStorage (meta h) /\
  simulationFails (meta h1) = simulationFails (meta h).
Proof.
  open_heap h. branches; intro H; inversion H; subst; cbn; repeat split; reflexivity.
Qed.

(** Which parameters a throwing run leaves behind. *)
Lemma estimate_throws
    (blockGasLimitHex : string) (getCodeResponse : option string) (h h1 : Heap)
    (err : Err.t) :
  estimate blockGasLimitHex getCodeResponse h = (Throw err, h1) ->
  gas (txParams (meta h1)) =
    (if Boolean (to (txParams (meta h)))
        && strict_eq (transactionCategory (meta h)) SEND_ETHER_ACTION_KEY
     then gas (txParams (meta h))
     else Some (bnToHex (BnMultiplyByFraction (hexToBn blockGasLimitHex) 19 20))).
Proof.
  open_heap h. branches; intro H; inversion H; subst; cbn; reflexivity.
Qed.

(** [setTxGas] on a record that is not a simple send and whose storage limit
    counts as specified. *)
Lemma setTxGas_storage_specified
    (blockGasLimitHex : string) (g s : option string) (h : Heap) :
  simpleSend (meta h) = false ->
  storageLimitSpecified (meta h) = true ->
  exists h',
    setTxGas blockGasLimitHex g s h = (Normal tt, h') /\
    estimatedStorage (meta h') = storageLimit (txParams (meta h)) /\
    storageLimit (txParams (meta h')) = storageLimit (txParams (meta h)) /\
    requests h' = requests h.
Proof.
  intros Hs Hl. open_heap h. subst. branches; eexists; repeat split.
Qed.


(** C5. A transaction with a recipient, of category
    [SEND_ETHER_ACTION_KEY], with call data and no gas limit of the caller:
    the estimator throws the non-contract-call error, which carries the
    error key and the code-lookup response, and leaves [params.gas] alone;
    [analyzeGasUsage] (the block fetched) catches it, returns normally, and
    records it in [simulationFails] with the code-lookup response in
    [debug]; [params.gas] is still what it was. *)
Theorem data_on_simple_transfer_rejected
    (getCodeResponse : option string) (h : Heap) :
  Boolean (to (txParams (meta h))) = true ->
  strict_eq (transactionCategory (meta h)) SEND_ETHER_ACTION_KEY = true ->
  Boolean (data (txParams (meta h))) = true ->
  Boolean (gas (txParams (meta h))) = false ->
  (forall blockGasLimitHex, exists h1,
      estimate blockGasLimitHex getCodeResponse h =
        (Throw (Err.mk "TxGasUtil - Trying to call a function on a non-contract address"
                       (Some TRANSACTION_NO_CONTRACT_ERROR_KEY) getCodeResponse), h1) /\
      gas (txParams (meta h1)) = gas (txParams (meta h))) /\
  (forall block, getBlockByNumber query "latest" false = Normal block ->
     exists h',
       analyze getCodeResponse h = (Normal tt, h') /\
       simulationFails (meta h') =
         Some (SimulationFails.mk
                 "TxGasUtil - Trying to call a function on a non-contract address"
                 (Some TRANSACTION_NO_CONTRACT_ERROR_KEY)
                 (Debug.mk (number block) (gasLimit block) getCodeResponse)) /\
       gas (txParams (meta h')) = gas (txParams (meta h))).
Proof.
  intros Hto Hcat Hdata Hgas.
  pose proof (String.eqb_refl TRANSACTION_NO_CONTRACT_ERROR_KEY) as Hrefl.
  split.
  - intro blockGasLimitHex. open_heap h. branches; eexists; repeat split.
  - intros block Hb. rewrite (analyze_block_settled _ _ _ Hb).
    open_heap h. branches; eexists; repeat split.
Qed.

(** C6. A transaction without a gas limit of the caller (so not
    short-circuited) that is not a recognized simple transfer (no recipient,
    or another category): the estimator sets [params.gas] to the hex string
    of [floor (blockGasLimit * 19 / 20)] (by [BnMultiplyByFraction], whose
    value is exactly that), asks the network for
    [estimateGas (params)] with these parameters, and completes as that
    request does. *)
Theorem fallback_then_network_estimate
    (blockGasLimitHex : string) (getCodeResponse : option string) (h : Heap) :
  Boolean (gas (txParams (meta h))) = false ->
  Boolean (to (txParams (meta h)))
    && strict_eq (transactionCategory (meta h)) SEND_ETHER_ACTION_KEY = false ->
  exists r h1,
    estimate blockGasLimitHex getCodeResponse h = (r, h1) /\
    gas (txParams (meta h1))
      = Some (bnToHex (BnMultiplyByFraction (hexToBn blockGasLimitHex) 19 20)) /\
    hexValue (bnToHex (BnMultiplyByFraction (hexToBn blockGasLimitHex) 19 20))
      = (hexValue blockGasLimitHex * 19 / 20)%Z /\
    requests h1 = (requests h ++ [EstimateGas (txParams (meta h1))])%list /\
    r = match estimateGas query (txParams (meta h1)) with
        | Normal (gasUsed, storageCollateralized) =>
            Normal (VObject (Some gasUsed) (Some storageCollateralized))
        | Throw e => Throw e
        end.
Proof.
  intros Hgas Hsimple.
  assert (hexValue (bnToHex (BnMultiplyByFraction (hexToBn blockGasLimitHex) 19 20))
          = (hexValue blockGasLimitHex * 19 / 20)%Z) as Hround
    by (apply HexFacts.hexValue_fraction; lia).
  open_heap h.
  branches; do 2 eexists;
    (split; [reflexivity | ]); (split; [reflexivity | ]); (split; [exact Hround | ]);
    (split; [reflexivity | ]); cbn [meta txParams];
    repeat match goal with
           | H : estimateGas _ _ = _ |- _ => rewrite H; clear H
           end; subst; reflexivity.
Qed.

(** C7. A run that succeeds (block fetched, estimator returned) and is not a
    simple send, for a caller who supplied a non-empty [storageLimit]: the
    final [estimatedStorage] is that [storageLimit], whatever value [v] the
    estimator returned. *)
Theorem caller_storage_limit_wins
    (getCodeResponse : option string) (h h1 : Heap) (block : Block) (v : JsValue) :
  Boolean (storageLimit (txParams (meta h))) = true ->
  getBlockByNumber query "latest" false = Normal block ->
  estimate (gasLimit block) getCodeResponse (fetched h) = (Normal v, h1) ->
  simpleSend (meta h1) = false ->
  exists h',
    analyze getCodeResponse h = (Normal tt, h') /\
    estimatedStorage (meta h') = storageLimit (txParams (meta h)).
Proof.
  intros Hstorage Hb Hest Hsimple.
  rewrite (analyze_block_settled _ _ _ Hb), Hest.
  destruct (estimate_bookkeeping _ _ _ _ _ Hest) as (Hl & _ & Hs & _).
  destruct (setTxGas_storage_specified (gasLimit block) (fst (destructure v))
              (snd (destructure v)) h1 Hsimple Hl) as (h' & Hrun & Hes & _).
  exists h'. split; [exact Hrun | ].
  rewrite Hes, Hs. cbn [fetched meta]. now rewrite Hstorage.
Qed.

(** C9. If the request for the latest block rejects, [analyzeGasUsage]
    rejects with the same error and has written nothing into the record
    ([simulationFails] included).  If it settles, [analyzeGasUsage] returns
    normally, and an error thrown by the estimator ends up in
    [simulationFails]. *)
Theorem block_fetch_is_the_boundary (getCodeResponse : option string) (h : Heap) :
  (forall e, getBlockByNumber query "latest" false = Throw e ->
     exists h',
       analyze getCodeResponse h = (Throw e, h') /\ meta h' = meta h) /\
  (forall block, getBlockByNumber query "latest" false = Normal block ->
     exists h',
       analyze getCodeResponse h = (Normal tt, h') /\
       forall err h1,
         estimate (gasLimit block) getCodeResponse (fetched h) = (Throw err, h1) ->
         simulationFails (meta h') = Some (failure block err)).
Proof.
  split.
  - intros e Hb. exists (fetched h). split; [now apply analyze_block_rejected | reflexivity].
  - intros block Hb. rewrite (analyze_block_settled _ _ _ Hb).
    destruct (estimate (gasLimit block) getCodeResponse (fetched h)) as [[v | err] h1] eqn:Hest.
    + assert (exists h', setTxGas (gasLimit block) (fst (destructure v))
                           (snd (destructure v)) h1 = (Normal tt, h')) as [h' Hrun].
      { clear. generalize (fst (destructure v)), (snd (destructure v)). intros g s.
        open_heap h1. branches; eexists; reflexivity. }
      exists h'. split; [exact Hrun | ]. intros err h2 Habs. discriminate Habs.
    + eexists. split; [reflexivity | ].
      intros err' h2 Heq. inversion Heq; subst. reflexivity.
Qed.

(** The assignment [txParams.storageLimit = txMeta.estimatedStorage] is the
    only place where [setTxGas] writes [params.storageLimit]. *)
Lemma setTxGas_keeps_storageLimit
    (blockGasLimitHex : string) (g s : option string) (h : Heap) :
  copies_estimated_storage (meta h) = false ->
  storageLimit (txParams (meta (snd (setTxGas blockGasLimitHex g s h))))
    = storageLimit (txParams (meta h)).
Proof.
  unfold copies_estimated_storage. open_heap h. intro Hpath.
  destruct simpleSend0, gasLimitSpecified0, storageLimitSpecified0;
    try discriminate Hpath; branches; reflexivity.
Qed.

Lemma setTxGas_copies_storage
    (blockGasLimitHex : string) (g s : option string) (h : Heap) :
  copies_estimated_storage (meta h) = true ->
  storageLimit (txParams (meta (snd (setTxGas blockGasLimitHex g s h))))
    = addHexPrefix s.
Proof.
  unfold copies_estimated_storage. open_heap h. intro Hpath.
  destruct simpleSend0, gasLimitSpecified0, storageLimitSpecified0;
    try discriminate Hpath; branches; reflexivity.
Qed.

(** C2, as the code has it.  When the estimator throws (the block fetched),
    [analyzeGasUsage] records [simulationFails = { reason, errorKey, debug:
    { blockNumber, blockGasLimit } }] (with the code-lookup response added
    under the non-contract-call key) and leaves [estimatedGas] and
    [estimatedStorage] as they were.  [params.storageLimit] keeps a
    non-empty value and is [0x0] otherwise; [params.gas] is unchanged when
    the transaction is a recognized simple transfer (the estimator's own
    rejection), and otherwise holds the fallback
    [floor (blockGasLimit * 19 / 20)] set before the network estimate. *)
Theorem failure_leaves_estimates
    (getCodeResponse : option string) (h h1 : Heap) (block : Block) (err : Err.t) :
  getBlockByNumber query "latest" false = Normal block ->
  estimate (gasLimit block) getCodeResponse (fetched h) = (Throw err, h1) ->
  exists h',
    analyze getCodeResponse h = (Normal tt, h') /\
    simulationFails (meta h') = Some (failure block err) /\
    estimatedGas (meta h') = estimatedGas (meta h) /\
    estimatedStorage (meta h') = estimatedStorage (meta h) /\
    storageLimit (txParams (meta h')) =
      (if Boolean (storageLimit (txParams (meta h)))
       then storageLimit (txParams (meta h)) else Some "0x0") /\
    gas (txParams (meta h')) =
      (if Boolean (to (txParams (meta h)))
          && strict_eq (transactionCategory (meta h)) SEND_ETHER_ACTION_KEY
       then gas (txParams (meta h))
       else Some (bnToHex (BnMultiplyByFraction (hexToBn (gasLimit block)) 19 20))).
Proof.
  intros Hb Hest.
  rewrite (analyze_block_settled _ _ _ Hb), Hest.
  destruct (estimate_bookkeeping _ _ _ _ _ Hest) as (_ & _ & Hs & Hg & Hes & _).
  pose proof (estimate_throws _ _ _ _ _ Hest) as Hgas.
  eexists. split; [reflexivity | ].
  cbn [meta set_simulationFails simulationFails estimatedGas estimatedStorage txParams].
  repeat split; assumption.
Qed.

End Adapter.

(** With adapters that differ in [storageCollateralized] only, two runs of
    the estimator differ in nothing but that value and the request log. *)
Lemma estimate_same_up_to_storage
    (query query' : EthQuery) (blockGasLimitHex : string) (getCodeResponse : option string)
    (h : Heap) :
  same_up_to_storage query query' ->
  match estimate_with query blockGasLimitHex getCodeResponse h,
        estimate_with query' blockGasLimitHex getCodeResponse h with
  | (Normal v, h1), (Normal v', h1') =>
      fst (destructure v) = fst (destructure v') /\ meta h1 = meta h1'
  | (Throw e, h1), (Throw e', h1') => e = e' /\ meta h1 = meta h1'
  | _, _ => False
  end.
Proof.
  intros [_ Hsame]. open_heap h.
  branches;
    repeat match goal with
           | H : match _ with Normal _ => _ | Throw _ => _ end = _ |- _ => revert H
           end;
    try match goal with
        | |- context [estimateGas query ?p] =>
            let S := fresh "S" in
            pose proof (Hsame p) as S; revert S;
            destruct (estimateGas query p) as [[? ?] | ?];
            destruct (estimateGas query' p) as [[? ?] | ?]
        end;
    intros; subst; try contradiction; try discriminate;
    repeat match goal with
           | H : Normal _ = Normal _ |- _ => inversion H; clear H
           | H : Throw _ = Throw _ |- _ => inversion H; clear H
           end;
    subst; split; reflexivity.
Qed.

(** With the storage limit counted as specified, what [setTxGas] leaves in
    the record does not depend on the estimated storage it is given. *)
Lemma setTxGas_ignores_estimated_storage
    (blockGasLimitHex : string) (g s s' : option string) (h h' : Heap) :
  storageLimitSpecified (meta h) = true ->
  meta h = meta h' ->
  fst (setTxGas blockGasLimitHex g s h) = fst (setTxGas blockGasLimitHex g s' h') /\
  meta (snd (setTxGas blockGasLimitHex g s h))
    = meta (snd (setTxGas blockGasLimitHex g s' h')).
Proof.
  intros Hl Hm. destruct h' as [m' requests']. open_heap h. cbn [meta] in Hm. subst.
  branches; split; reflexivity.
Qed.

(** C10. Every run of the estimator, returning or throwing, leaves
    [storageLimitSpecified] true, with an absent or empty [storageLimit]
    replaced by [0x0]; so the record handed to [setTxGas] never satisfies the
    path condition of [txParams.storageLimit = txMeta.estimatedStorage].
    Consequently a successful run that is not a simple send ends with
    [estimatedStorage] equal to [params.storageLimit], and the record that
    [analyzeGasUsage] leaves is the same for two network adapters that differ
    only in the [storageCollateralized] they report ([setTxGas] stores that
    value in [estimatedStorage] on entry and overwrites it before it
    returns). *)
Theorem storage_limit_always_specified
    (getCodeResponse : option string) (h : Heap) (query query' : EthQuery) :
  (forall blockGasLimitHex r h1,
      estimate_with query blockGasLimitHex getCodeResponse h = (r, h1) ->
      storageLimitSpecified (meta h1) = true /\
      storageLimit (txParams (meta h1)) =
        (if Boolean (storageLimit (txParams (meta h)))
         then storageLimit (txParams (meta h)) else Some "0x0") /\
      copies_estimated_storage (meta h1) = false) /\
  (forall block v h1,
      getBlockByNumber query "latest" false = Normal block ->
      estimate_with query (gasLimit block) getCodeResponse (fetched h) = (Normal v, h1) ->
      simpleSend (meta h1) = false ->
      exists h',
        analyze_with query getCodeResponse h = (Normal tt, h') /\
        estimatedStorage (meta h') = storageLimit (txParams (meta h'))) /\
  (same_up_to_storage query query' ->
   fst (analyze_with query getCodeResponse h)
     = fst (analyze_with query' getCodeResponse h) /\
   meta (snd (analyze_with query getCodeResponse h))
     = meta (snd (analyze_with query' getCodeResponse h))).
Proof.
  split; [ | split].
  - intros blockGasLimitHex r h1 Hest.
    destruct (estimate_bookkeeping _ _ _ _ _ _ Hest) as (Hl & _ & Hs & _).
    split; [exact Hl | ]. split; [exact Hs | ].
    unfold copies_estimated_storage. rewrite Hl.
    destruct (simpleSend (meta h1)), (gasLimitSpecified (meta h1)); reflexivity.
  - intros block v h1 Hb Hest Hsimple.
    rewrite (analyze_block_settled _ _ _ _ Hb), Hest.
    destruct (estimate_bookkeeping _ _ _ _ _ _ Hest) as (Hl & _).
    destruct (setTxGas_storage_specified (gasLimit block) (fst (destructure v))
                (snd (destructure v)) h1 Hsimple Hl) as (h' & Hrun & Hes & Hsl & _).
    exists h'. split; [exact Hrun | ]. now rewrite Hes, Hsl.
  - intros Hsame. pose proof Hsame as [Hblock _].
    destruct (getBlockByNumber query "latest" false) as [block | e] eqn:Hb.
    + assert (getBlockByNumber query' "latest" false = Normal block) as Hb'
        by (rewrite <- Hblock; exact Hb).
      rewrite (analyze_block_settled _ _ _ _ Hb), (analyze_block_settled _ _ _ _ Hb').
      pose proof (estimate_same_up_to_storage query query' (gasLimit block)
                    getCodeResponse (fetched h) Hsame) as Hrel.
      destruct (estimate_with query (gasLimit block) getCodeResponse (fetched h))
        as [[v | err] h1] eqn:Hest;
        destruct (estimate_with query' (gasLimit block) getCodeResponse (fetched h))
        as [[v' | err'] h1']; try contradiction; destruct Hrel as [Hv Hm].
      * destruct (estimate_bookkeeping _ _ _ _ _ _ Hest) as (Hl & _).
        rewrite Hv. apply setTxGas_ignores_estimated_storage; assumption.
      * subst err'. cbn [fst snd meta]. rewrite Hm. split; reflexivity.
    + assert (getBlockByNumber query' "latest" false = Throw e) as Hb'
        by (rewrite <- Hblock; exact Hb).
      rewrite (analyze_block_rejected _ _ _ _ Hb), (analyze_block_rejected _ _ _ _ Hb').
      split; reflexivity.
Qed.

End Estimator.

(** ** The claims on sample transactions *)

Local Abbreviation sample_estimate :=
  (estimateTxGasAndCollateral Sample.SEND_ETHER_ACTION_KEY
     Sample.TRANSACTION_NO_CONTRACT_ERROR_KEY Sample.isValidContractAddress).
Local Abbreviation sample_analyze :=
  (analyzeGasUsage Sample.SEND_ETHER_ACTION_KEY
     Sample.TRANSACTION_NO_CONTRACT_ERROR_KEY Sample.isValidContractAddress).

(** C2, as the claim states it, fails: a contract deployment whose network
    estimate rejects ends with [simulationFails] set, and yet [params.gas]
    went from [undefined] to the fallback [0x17318] (95000 of 100000) and
    [params.storageLimit] from [undefined] to [0x0]. *)
Lemma failed_estimate_changes_gas_fields :
  exists h',
    sample_analyze Sample.query_failing None Sample.deployment = (Normal tt, h') /\
    simulationFails (meta h') <> None /\
    gas (txParams (meta h')) = Some "0x17318" /\
    gas (txParams (meta h')) <> gas (txParams (meta Sample.deployment)) /\
    storageLimit (txParams (meta h')) = Some "0x0" /\
    storageLimit (txParams (meta h')) <> storageLimit (txParams (meta Sample.deployment)).
Proof.
  eexists. split; [vm_compute; reflexivity | ].
  cbn. repeat split; try reflexivity; discriminate.
Qed.


Lemma failure_leaves_estimates_witness :
  exists h',
    sample_analyze Sample.query_failing None Sample.deployment = (Normal tt, h') /\
    simulationFails (meta h') =
      Some (failure_record Sample.TRANSACTION_NO_CONTRACT_ERROR_KEY Sample.block
              Sample.estimate_error) /\
    estimatedGas (meta h') = None /\
    estimatedStorage (meta h') = None /\
    storageLimit (txParams (meta h')) = Some "0x0" /\
    gas (txParams (meta h')) = Some "0x17318".
Proof.
  exact (failure_leaves_estimates Sample.SEND_ETHER_ACTION_KEY
           Sample.TRANSACTION_NO_CONTRACT_ERROR_KEY Sample.isValidContractAddress
           Sample.query_failing None Sample.deployment
           (snd (sample_estimate Sample.query_failing "0x186a0" None
                   (fetched Sample.deployment)))
           Sample.block Sample.estimate_error eq_refl eq_refl).
Defined.

Lemma short_circuit_witness :
  (exists h1,
      sample_estimate Sample.query "0x186a0" None Sample.fully_specified =
        (Normal (VObject (Some "0x77") (Some "0x99")), h1) /\
      requests h1 = [] /\
      txParams (meta h1) = txParams (meta Sample.fully_specified)) /\
  (forall block, getBlockByNumber Sample.query "latest" false = Normal block ->
     exists h2,
       sample_analyze Sample.query None Sample.fully_specified = (Normal tt, h2) /\
       requests h2 = [GetBlockByNumber "latest" false] /\
       gas (txParams (meta h2)) = Some "0x77" /\
       storageLimit (txParams (meta h2)) = Some "0x99").
Proof.
  exact (short_circuit_returns_caller_pair Sample.SEND_ETHER_ACTION_KEY
           Sample.TRANSACTION_NO_CONTRACT_ERROR_KEY Sample.isValidContractAddress
           Sample.query "0x186a0" None Sample.fully_specified eq_refl eq_refl).
Defined.


Lemma data_on_simple_transfer_witness :
  (forall blockGasLimitHex, exists h1,
      sample_estimate Sample.query blockGasLimitHex (Some "0x") Sample.transfer_with_data =
        (Throw (Err.mk "TxGasUtil - Trying to call a function on a non-contract address"
                       (Some "transactionErrorNoContract") (Some "0x")), h1) /\
      gas (txParams (meta h1)) = None) /\
  (forall block, getBlockByNumber Sample.query "latest" false = Normal block ->
     exists h',
       sample_analyze Sample.query (Some "0x") Sample.transfer_with_data = (Normal tt, h') /\
       simulationFails (meta h') =
         Some (SimulationFails.mk
                 "TxGasUtil - Trying to call a function on a non-contract address"
                 (Some "transactionErrorNoContract")
                 (Debug.mk (number block) (gasLimit block) (Some "0x"))) /\
       gas (txParams (meta h')) = None).
Proof.
  exact (data_on_simple_transfer_rejected Sample.SEND_ETHER_ACTION_KEY
           Sample.TRANSACTION_NO_CONTRACT_ERROR_KEY Sample.isValidContractAddress
           Sample.query (Some "0x") Sample.transfer_with_data
           eq_refl eq_refl eq_refl eq_refl).
Defined.

Lemma fallback_witness :
  exists r h1,
    sample_estimate Sample.query "0x186a0" None Sample.deployment = (r, h1) /\
    gas (txParams (meta h1)) = Some "0x17318" /\
    hexValue "0x17318" = (hexValue "0x186a0" * 19 / 20)%Z /\
    requests h1 = [EstimateGas (txParams (meta h1))] /\
    r = match estimateGas Sample.query (txParams (meta h1)) with
        | Normal (gasUsed, storageCollateralized) =>
            Normal (VObject (Some gasUsed) (Some storageCollateralized))
        | Throw e => Throw e
        end.
Proof.
  exact (fallback_then_network_estimate Sample.SEND_ETHER_ACTION_KEY
           Sample.TRANSACTION_NO_CONTRACT_ERROR_KEY Sample.isValidContractAddress
           Sample.query "0x186a0" None Sample.deployment eq_refl eq_refl).
Defined.

Lemma caller_storage_limit_witness :
  exists h',
    sample_analyze Sample.query None Sample.call_with_storage = (Normal tt, h') /\
    estimatedStorage (meta h') = Some "0x99".
Proof.
  exact (caller_storage_limit_wins Sample.SEND_ETHER_ACTION_KEY
           Sample.TRANSACTION_NO_CONTRACT_ERROR_KEY Sample.isValidContractAddress
           Sample.query None Sample.call_with_storage
           (snd (sample_estimate Sample.query "0x186a0" None
                   (fetched Sample.call_with_storage)))
           Sample.block (VObject (Some "0x2710") (Some "0x40"))
           eq_refl eq_refl eq_refl eq_refl).
Defined.

Lemma block_fetch_boundary_witness :
  (exists h',
      sample_analyze Sample.query_offline None Sample.deployment
        = (Throw Sample.offline_error, h') /\
      meta h' = meta Sample.deployment) /\
  (exists h',
      sample_analyze Sample.query_failing None Sample.deployment = (Normal tt, h') /\
      forall err h1,
        sample_estimate Sample.query_failing "0x186a0" None (fetched Sample.deployment)
          = (Throw err, h1) ->
        simulationFails (meta h') =
          Some (failure_record Sample.TRANSACTION_NO_CONTRACT_ERROR_KEY Sample.block err)).
Proof.
  split.
  - exact (proj1 (block_fetch_is_the_boundary Sample.SEND_ETHER_ACTION_KEY
                    Sample.TRANSACTION_NO_CONTRACT_ERROR_KEY Sample.isValidContractAddress
                    Sample.query_offline None Sample.deployment)
             Sample.offline_error eq_refl).
  - exact (proj2 (block_fetch_is_the_boundary Sample.SEND_ETHER_ACTION_KEY
                    Sample.TRANSACTION_NO_CONTRACT_ERROR_KEY Sample.isValidContractAddress
                    Sample.query_failing None Sample.deployment)
             Sample.block eq_refl).
Defined.

Lemma sample_queries_same_up_to_storage :
  same_up_to_storage Sample.query Sample.query_other_storage.
Proof. split; intros; reflexivity. Defined.

Lemma storage_limit_always_specified_witness :
  (storageLimitSpecified
     (meta (snd (sample_estimate Sample.query "0x186a0" None Sample.deployment))) = true /\
   storageLimit
     (txParams (meta (snd (sample_estimate Sample.query "0x186a0" None Sample.deployment))))
     = Some "0x0" /\
   copies_estimated_storage
     (meta (snd (sample_estimate Sample.query "0x186a0" None Sample.deployment))) = false) /\
  (exists h',
      sample_analyze Sample.query None Sample.call_with_storage = (Normal tt, h') /\
      estimatedStorage (meta h') = storageLimit (txParams (meta h'))) /\
  (fst (sample_analyze Sample.query None Sample.deployment)
     = fst (sample_analyze Sample.query_other_storage None Sample.deployment) /\
   meta (snd (sample_analyze Sample.query None Sample.deployment))
     = meta (snd (sample_analyze Sample.query_other_storage None Sample.deployment))).
Proof.
  split; [ | split].
  - exact (proj1 (storage_limit_always_specified Sample.SEND_ETHER_ACTION_KEY
                    Sample.TRANSACTION_NO_CONTRACT_ERROR_KEY Sample.isValidContractAddress
                    None Sample.deployment Sample.query Sample.query_other_storage)
             "0x186a0" _ _ eq_refl).
  - exact (proj1 (proj2 (storage_limit_always_specified Sample.SEND_ETHER_ACTION_KEY
                    Sample.TRANSACTION_NO_CONTRACT_ERROR_KEY Sample.isValidContractAddress
                    None Sample.call_with_storage Sample.query Sample.query_other_storage))
             Sample.block (VObject (Some "0x2710") (Some "0x40"))
             (snd (sample_estimate Sample.query "0x186a0" None
                     (fetched Sample.call_with_storage)))
             eq_refl eq_refl eq_refl).
  - exact (proj2 (proj2 (storage_limit_always_specified Sample.SEND_ETHER_ACTION_KEY
                    Sample.TRANSACTION_NO_CONTRACT_ERROR_KEY Sample.isValidContractAddress
                    None Sample.deployment Sample.query Sample.query_other_storage))
             sample_queries_same_up_to_storage).
Defined.

(** * Further properties *)

(** ** The buffer calculator on values *)

Local Open Scope Z_scope.

Module BNOrder.
Import JsNumber BN.

Lemma value_bounds (ws : list Z) :
  Forall is_word ws -> 0 <= value ws < 2 ^ (26 * Z.of_nat (List.length ws)).
Proof.
  induction 1 as [ | w ws Hw _ IH]; cbn [value List.length].
  - cbn. lia.
  - rewrite Nat2Z.inj_succ.
    replace (26 * Z.succ (Z.of_nat (List.length ws))) with (26 + 26 * Z.of_nat (List.length ws)) by lia.
    rewrite Z.pow_add_r by lia. unfold is_word in Hw.
    change (2 ^ 26) with 67108864 in *. lia.
Qed.

(** Numbers of equal length compare as their values do. *)
Lemma ucmp_words_value (a : list Z) :
  forall b : list Z,
    List.length a = List.length b -> Forall is_word a -> Forall is_word b ->
    ucmp_words a b = match value (rev a) ?= value (rev b) with
                     | Lt => -1 | Eq => 0 | Gt => 1
                     end.
Proof.
  induction a as [ | x a IH]; intros [ | y b] Hlen Ha Hb; try discriminate Hlen.
  - reflexivity.
  - inversion Ha as [ | ? ? Hx Ha']; inversion Hb as [ | ? ? Hy Hb']; subst.
    cbn [List.length] in Hlen. injection Hlen as Hlen.
    cbn [ucmp_words rev]. rewrite !BNFacts.value_app, !length_rev, <- Hlen.
    pose proof (value_bounds (rev a) (Forall_rev Ha')) as Ba.
    pose proof (value_bounds (rev b) (Forall_rev Hb')) as Bb.
    rewrite !length_rev in Ba, Bb. rewrite <- Hlen in Bb.
    set (P := 2 ^ (26 * Z.of_nat (List.length a))) in *.
    unfold is_word in Hx, Hy. change (2 ^ 26) with 67108864 in Hx, Hy.
    rewrite !FloatFacts.wrap32_small by (change (2 ^ 31) with 2147483648; lia).
    destruct (Z.eqb_spec x y) as [-> | Hne].
    + rewrite (IH b Hlen Ha' Hb').
      rewrite (Z.add_comm (value (rev a))), (Z.add_comm (value (rev b))), Z.add_compare_mono_l. reflexivity.
    + destruct (Z.ltb_spec x y) as [Hlt | Hge].
      * assert (value (rev a) + P * x < value (rev b) + P * y) as Hc by nia.
        apply Z.compare_lt_iff in Hc. now rewrite Hc.
      * assert (value (rev b) + P * y < value (rev a) + P * x) as Hc by nia.
        apply Z.compare_gt_iff in Hc. now rewrite Hc.
Qed.

(** [muln (0.9)] never carries: every word is scaled where it stands, and
    the length stays, leading zero words included. *)
Lemma imuln_loop_0_9 (ws : list Z) :
  Forall is_word ws ->
  imuln_loop lit_0_9 ws 0 = (map (fun w => w * 9 / 10) ws, 0).
Proof.
  induction 1 as [ | w ws Hw _ IH]; [reflexivity | ].
  cbn [imuln_loop map].
  destruct (FloatFacts.product_0_9 w Hw) as [-> ->].
  assert (0 <= w * 9 / 10 < 2 ^ 26) as HT
    by (unfold is_word in Hw; change (2 ^ 26) with 67108864 in *; Z.div_mod_to_equations; lia).
  destruct (BNFacts.first_word _ HT) as [-> ->].
  change (Z.shiftr 0 26 + 0 + 0) with 0. now rewrite IH.
Qed.

Lemma muln_0_9_words (x : BN.t) :
  Forall is_word x -> muln x lit_0_9 = map (fun w => w * 9 / 10) x.
Proof.
  intro Hx. unfold muln, imuln. now rewrite imuln_loop_0_9.
Qed.

Lemma muln_0_9_is_word (x : BN.t) : Forall is_word x -> Forall is_word (muln x lit_0_9).
Proof.
  intro Hx. rewrite muln_0_9_words by assumption.
  induction Hx as [ | w ws Hw _ IH]; cbn [map]; constructor; [ | assumption].
  unfold is_word in *. change (2 ^ 26) with 67108864 in *. Z.div_mod_to_equations. lia.
Qed.

Lemma muln_0_9_le (x : BN.t) :
  Forall is_word x -> 0 <= value (muln x lit_0_9) <= value x * 9 / 10.
Proof.
  intro Hx. rewrite muln_0_9_words by assumption.
  assert (0 <= value (map (fun w => w * 9 / 10) x)
          /\ 10 * value (map (fun w => w * 9 / 10) x) <= 9 * value x) as [H0 H1].
  { induction Hx as [ | w ws Hw _ IH]; cbn [map value]; [lia | ].
    unfold is_word in Hw. change (2 ^ 26) with 67108864 in *.
    Z.div_mod_to_equations. lia. }
  split; [assumption | ]. apply Z.div_le_lower_bound; lia.
Qed.

(** [muln (1.5)]: the words stay words, at most one word is added, and the
    value does not go down. *)
Lemma imuln_loop_1_5 (ws : list Z) :
  Forall is_word ws ->
  forall carry, 0 <= carry <= 2 ->
    Forall is_word (fst (imuln_loop lit_1_5 ws carry)) /\
    0 <= snd (imuln_loop lit_1_5 ws carry) <= 2.
Proof.
  induction 1 as [ | w ws Hw _ IH]; intros carry Hc.
  - cbn. split; [constructor | lia].
  - cbn [imuln_loop].
    destruct (FloatFacts.product_1_5 w Hw) as [-> ->].
    assert (0 <= w * 3 / 2 < 2 * 2 ^ 26) as HT
      by (unfold is_word in Hw; change (2 ^ 26) with 67108864 in *; Z.div_mod_to_equations; lia).
    set (T := w * 3 / 2) in *.
    assert (0 <= carry < 2 ^ 26) as Hc26 by (change (2 ^ 26) with 67108864; lia).
    assert (Z.land carry word_mask = carry) as ->
      by (rewrite FloatFacts.word_mask_ones, Z.land_ones, Z.mod_small; [reflexivity | lia | lia]).
    assert (Z.shiftr carry 26 = 0) as ->
      by (rewrite Z.shiftr_div_pow2, Z.div_small; [reflexivity | lia | lia]).
    pose proof (Z.mod_pos_bound T (2 ^ 26) ltac:(lia)) as Hm.
    set (lo := T mod 2 ^ 26 + carry) in *.
    assert (0 <= lo < 2 * 2 ^ 26) as Hlo by (unfold lo; change (2 ^ 26) with 67108864 in *; lia).
    assert (0 <= ushiftr lo 26 <= 1) as Hu.
    { unfold ushiftr.
      rewrite Z.mod_small by (change (2 ^ 32) with 4294967296; change (2 ^ 26) with 67108864 in *; lia).
      rewrite Z.shiftr_div_pow2 by lia. change (2 ^ 26) with 67108864 in *.
      Z.div_mod_to_equations. lia. }
    assert (0 <= T / 2 ^ 26 <= 1) as Hd
      by (change (2 ^ 26) with 67108864 in *; Z.div_mod_to_equations; lia).
    destruct (IH (0 + T / 2 ^ 26 + ushiftr lo 26) ltac:(lia)) as [IHw IHc].
    destruct (imuln_loop lit_1_5 ws (0 + T / 2 ^ 26 + ushiftr lo 26)) as [rest' carry'].
    cbn [fst snd] in *. split; [ | assumption].
    constructor; [ | assumption].
    unfold is_word. rewrite FloatFacts.word_mask_ones, Z.land_ones by lia.
    apply Z.mod_pos_bound. lia.
Qed.

Lemma muln_1_5_is_word (x : BN.t) : Forall is_word x -> Forall is_word (muln x lit_1_5).
Proof.
  intro Hx. unfold muln, imuln.
  destruct (imuln_loop_1_5 x Hx 0 ltac:(lia)) as [Hw Hc].
  destruct (imuln_loop lit_1_5 x 0) as [ws' carry]. cbn [fst snd] in *.
  destruct (Z.eqb_spec carry 0); [assumption | ].
  apply Forall_app. split; [assumption | ].
  repeat constructor; change (2 ^ 26) with 67108864; lia.
Qed.

Lemma muln_length (x : BN.t) (num : number) :
  (List.length x <= List.length (muln x num))%nat.
Proof.
  unfold muln, imuln.
  destruct (BNFacts.imuln_loop_value num x 0) as [Hl _].
  destruct (imuln_loop num x 0) as [ws' carry]. cbn [fst] in Hl.
  destruct (carry =? 0); [lia | ]. rewrite length_app. lia.
Qed.

Lemma muln_1_5_ge (x : BN.t) : Forall is_word x -> value x <= value (muln x lit_1_5).
Proof.
  intro Hx. rewrite BNFacts.muln_1_5_value by assumption.
  induction Hx as [ | w ws Hw _ IH]; cbn [map value]; [lia | ].
  unfold is_word in Hw. change (2 ^ 26) with 67108864 in *.
  Z.div_mod_to_equations. lia.
Qed.

(** The words that the constructor builds have no leading zero word: a
    positive value of [L] words is at least [2^(26 * (L - 1))]. *)
Lemma to_words_lower (fuel : nat) :
  forall n : Z, 1 <= n < 2 ^ (26 * Z.of_nat fuel) ->
    (1 <= List.length (to_words fuel n))%nat /\
    2 ^ (26 * (Z.of_nat (List.length (to_words fuel n)) - 1)) <= n.
Proof.
  induction fuel as [ | fuel IH]; intros n Hn.
  - cbn in Hn. lia.
  - cbn [to_words]. destruct (Z.ltb_spec n (2 ^ 26)) as [Hlt | Hge].
    + cbn. lia.
    + rewrite Nat2Z.inj_succ in Hn.
      replace (26 * Z.succ (Z.of_nat fuel)) with (26 + 26 * Z.of_nat fuel) in Hn by lia.
      rewrite Z.pow_add_r in Hn by lia.
      destruct (IH (n / 2 ^ 26)) as [Hl Hv].
      { split; [apply Z.div_le_lower_bound; lia | apply Z.div_lt_upper_bound; lia]. }
      cbn [List.length]. split; [lia | ].
      rewrite Nat2Z.inj_succ.
      replace (26 * (Z.succ (Z.of_nat (List.length (to_words fuel (n / 2 ^ 26)))) - 1))
        with (26 + 26 * (Z.of_nat (List.length (to_words fuel (n / 2 ^ 26))) - 1)) by lia.
      rewrite Z.pow_add_r by lia.
      pose proof (Z.mul_div_le n (2 ^ 26) ltac:(lia)). nia.
Qed.

Lemma words_lower (n : Z) :
  0 <= n ->
  (1 <= List.length (words n))%nat /\
  (1 <= n -> 2 ^ (26 * (Z.of_nat (List.length (words n)) - 1)) <= n).
Proof.
  intro Hn. unfold words.
  destruct (Z.eq_dec n 0) as [-> | Hnz]; [cbn; lia | ].
  assert (1 <= n < 2 ^ (26 * Z.of_nat (S (Z.to_nat (Z.log2 n))))) as Hb.
  { split; [lia | ].
    rewrite Nat2Z.inj_succ, Z2Nat.id by apply Z.log2_nonneg.
    pose proof (Z.log2_spec n ltac:(lia)) as [_ Hhi].
    assert (2 ^ Z.succ (Z.log2 n) <= 2 ^ (26 * Z.succ (Z.log2 n)))
      by (apply Z.pow_le_mono_r; pose proof (Z.log2_nonneg n); lia).
    lia. }
  destruct (to_words_lower _ n Hb) as [Hl Hv]. split; [exact Hl | intros _; exact Hv].
Qed.

(** A shorter number is below a longer one that the constructor built. *)
Lemma shorter_is_less (a : list Z) (n : Z) :
  Forall is_word a -> 0 <= n ->
  (List.length a < List.length (words n))%nat -> (1 <= List.length a)%nat ->
  value a < n.
Proof.
  intros Ha Hn Hlen Hpos.
  pose proof (value_bounds a Ha) as [_ Hhi].
  destruct (words_lower n Hn) as [_ Hlow].
  assert (1 <= n) as H1.
  { destruct (Z.eq_dec n 0) as [-> | ]; [cbn in Hlen; lia | lia]. }
  specialize (Hlow H1).
  assert (2 ^ (26 * Z.of_nat (List.length a))
          <= 2 ^ (26 * (Z.of_nat (List.length (words n)) - 1)))
    by (apply Z.pow_le_mono_r; lia).
  lia.
Qed.

End BNOrder.

Module BufferMore.
Import JsNumber BN.

Lemma hexToBn_is_word (s : string) : Forall is_word (hexToBn s).
Proof.
  rewrite HexFacts.hexToBn_words.
  exact (proj2 (BNFacts.value_words _ (HexFacts.hexValue_nonneg s))).
Qed.

(** The two comparisons of [addGasBuffer], read on values: a number that
    is [gt] or [lt] by its words is so by its value whenever the lengths
    agree, and a longer number always counts as the greater one. *)
Lemma cmp_equal_length (a b : BN.t) :
  List.length a = List.length b -> Forall is_word a -> Forall is_word b ->
  cmp a b = match value a ?= value b with Lt => -1 | Eq => 0 | Gt => 1 end.
Proof.
  intros Hlen Ha Hb. unfold cmp, ucmp. rewrite Hlen, Nat.ltb_irrefl.
  rewrite BNOrder.ucmp_words_value
    by (rewrite ?length_rev; try apply Forall_rev; assumption).
  now rewrite !rev_involutive.
Qed.

Lemma cmp_longer (a b : BN.t) : (List.length b < List.length a)%nat -> cmp a b = 1.
Proof.
  intro H. unfold cmp, ucmp. apply Nat.ltb_lt in H. now rewrite H.
Qed.

Lemma cmp_shorter (a b : BN.t) : (List.length a < List.length b)%nat -> cmp a b = -1.
Proof.
  intro H. unfold cmp, ucmp.
  assert ((List.length b <? List.length a)%nat = false) as -> by (apply Nat.ltb_ge; lia).
  apply Nat.ltb_lt in H. now rewrite H.
Qed.

End BufferMore.

(** With a block gas limit of one word the code computes [spec_buffer],
    whatever the length of the initial value. *)
Lemma addGasBuffer_one_word (i b : string) :
  hexValue b < 2 ^ 26 ->
  hexValue (addGasBuffer i b) = spec_buffer (hexValue i) (hexValue b).
Proof.
  intro Hb.
  destruct (Z.lt_ge_cases (hexValue i) (2 ^ 26)) as [Hi | Hi];
    [now apply BufferFacts.addGasBuffer_single_word | ].
  pose proof (HexFacts.hexValue_nonneg b) as Hb0.
  unfold addGasBuffer, spec_buffer. cbv zeta.
  rewrite (HexFacts.hexToBn_words b), BNFacts.words_single by lia.
  assert (BN.is_word (hexValue b)) as Wy by (unfold BN.is_word; lia).
  rewrite BNFacts.muln_0_9_single by assumption.
  assert (hexValue b * 9 / 10 < 2 ^ 26) as Hu
    by (change (2 ^ 26) with 67108864 in *; Z.div_mod_to_equations; lia).
  assert (BN.gt (hexToBn i) [hexValue b * 9 / 10] = true) as ->.
  { unfold BN.gt. rewrite BufferMore.cmp_longer; [reflexivity | ].
    cbn [List.length].
    destruct (Nat.le_gt_cases (List.length (hexToBn i)) 1) as [Hle | ]; [exfalso | assumption].
    pose proof (BNOrder.value_bounds _ (BufferMore.hexToBn_is_word i)) as [_ Hhi].
    fold (hexValue i) in Hhi.
    assert (2 ^ (26 * Z.of_nat (List.length (hexToBn i))) <= 2 ^ 26)
      by (apply Z.pow_le_mono_r; lia).
    lia. }
  destruct (Z.ltb_spec (hexValue b * 9 / 10) (hexValue i)) as [_ | Hle]; [ | lia].
  apply HexFacts.hexValue_bnToHex. apply HexFacts.hexValue_nonneg.
Qed.

(** While the block gas limit is below [2^26] (one word of [bn.js]),
    [addGasBuffer] returns exactly the buffer of its comments for every
    initial value: the initial value if it is above nine tenths of the block
    gas limit, else one and a half times the initial value if that is below
    nine tenths of the block gas limit, else nine tenths of the block gas
    limit, every product rounded down. *)
Theorem addGasBuffer_one_word_limit (i b : string) :
  hexValue b < 2 ^ 26 ->
  hexValue (addGasBuffer i b) = spec_buffer (hexValue i) (hexValue b).
Proof. exact (addGasBuffer_one_word i b). Qed.

(** While the block gas limit is below [2^26], the result of
    [addGasBuffer] is never below the initial value, it is at most nine
    tenths of the block gas limit unless the initial value already was above
    that, and buffering a result that reached the nine tenths again gives
    the same value. *)
Theorem addGasBuffer_one_word_fixed_point (i b : string) :
  hexValue b < 2 ^ 26 ->
  let upper := hexValue b * 9 / 10 in
  let o := addGasBuffer i b in
  (upper <= hexValue o -> hexValue (addGasBuffer o b) = hexValue o) /\
  hexValue i <= hexValue o /\
  (hexValue o <= upper \/ upper < hexValue i).
Proof.
  intro Hb. cbv zeta.
  pose proof (HexFacts.hexValue_nonneg i) as Hi0.
  pose proof (HexFacts.hexValue_nonneg b) as Hb0.
  rewrite (addGasBuffer_one_word (addGasBuffer i b) b Hb).
  rewrite (addGasBuffer_one_word i b Hb).
  unfold spec_buffer. cbv zeta.
  set (u := hexValue b * 9 / 10). set (x := hexValue i) in *.
  assert (0 <= u) by (unfold u; Z.div_mod_to_equations; lia).
  assert (x <= x * 3 / 2) by (Z.div_mod_to_equations; lia).
  destruct (Z.ltb_spec u x) as [H1 | H1].
  - destruct (Z.ltb_spec u x); lia.
  - destruct (Z.ltb_spec (x * 3 / 2) u) as [H2 | H2].
    + split; [intro Hup; exfalso; lia | lia].
    + assert (u <= u * 3 / 2) by (Z.div_mod_to_equations; lia).
      destruct (Z.ltb_spec u u); [lia | ].
      destruct (Z.ltb_spec (u * 3 / 2) u); [lia | ].
      split; [reflexivity | lia].
Qed.

(** The two [muln] calls of [addGasBuffer] err downwards only: the upper
    limit never exceeds nine tenths of the block gas limit, and the buffered
    value lies between the initial value and one and a half times it. *)
Theorem scaling_errs_downwards (i b : string) :
  0 <= BN.value (BN.muln (hexToBn b) JsNumber.lit_0_9) <= hexValue b * 9 / 10 /\
  hexValue i <= BN.value (BN.muln (hexToBn i) JsNumber.lit_1_5) <= hexValue i * 3 / 2.
Proof.
  pose proof (BufferMore.hexToBn_is_word i) as Wi.
  pose proof (BufferMore.hexToBn_is_word b) as Wb.
  split; [exact (BNOrder.muln_0_9_le _ Wb) | ].
  split; [exact (BNOrder.muln_1_5_ge _ Wi) | ].
  rewrite BNFacts.muln_1_5_value by assumption. unfold hexValue.
  assert (2 * BN.value (map (fun w => w * 3 / 2) (hexToBn i)) <= 3 * BN.value (hexToBn i)).
  { induction Wi as [ | w ws Hw _ IH]; cbn [map BN.value]; [lia | ].
    unfold BN.is_word in Hw. change (2 ^ 26) with 67108864 in *.
    Z.div_mod_to_equations. lia. }
  apply Z.div_le_lower_bound; lia.
Qed.

(** Whatever the two inputs, [addGasBuffer] never returns more than the
    larger of the initial value and the block gas limit, and an initial value
    above the block gas limit is returned unchanged. *)
Theorem addGasBuffer_within_limit (i b : string) :
  hexValue (addGasBuffer i b) <= Z.max (hexValue i) (hexValue b) /\
  (hexValue b < hexValue i -> hexValue (addGasBuffer i b) = hexValue i).
Proof.
  pose proof (HexFacts.hexValue_nonneg i) as Hi0.
  pose proof (HexFacts.hexValue_nonneg b) as Hb0.
  pose proof (BufferMore.hexToBn_is_word i) as Wi.
  pose proof (BufferMore.hexToBn_is_word b) as Wb.
  pose proof (BNOrder.muln_0_9_is_word _ Wb) as Wu.
  pose proof (BNOrder.muln_1_5_is_word _ Wi) as Wf.
  pose proof (BNOrder.muln_0_9_le _ Wb) as [Hu0 Hu]. fold (hexValue b) in Hu.
  assert (hexValue b * 9 / 10 <= hexValue b) as Hnine by (Z.div_mod_to_equations; lia).
  assert (List.length (BN.muln (hexToBn b) JsNumber.lit_0_9) = List.length (hexToBn b)) as Lu
    by (rewrite BNOrder.muln_0_9_words, length_map by assumption; reflexivity).
  pose proof (BNOrder.muln_length (hexToBn i) JsNumber.lit_1_5) as Lf.
  pose proof (BNOrder.words_lower _ Hi0) as [Li _].
  rewrite <- HexFacts.hexToBn_words in Li.
  unfold addGasBuffer. cbv zeta.
  set (I := hexToBn i) in *. set (U := BN.muln (hexToBn b) JsNumber.lit_0_9) in *.
  set (F := BN.muln I JsNumber.lit_1_5) in *.
  assert (BN.value I = hexValue i) as VI by reflexivity.
  split.
  - destruct (BN.gt I U); [rewrite HexFacts.hexValue_bnToHex; lia | ].
    destruct (BN.lt F U) eqn:Elt; [ | rewrite HexFacts.hexValue_bnToHex; lia].
    rewrite HexFacts.hexValue_bnToHex
      by (pose proof (BNOrder.value_bounds F Wf); lia).
    unfold BN.lt in Elt. apply Z.eqb_eq in Elt.
    destruct (Nat.lt_trichotomy (List.length F) (List.length U)) as [Hl | [Hl | Hl]].
    + rewrite Lu in Hl.
      assert (BN.value F < hexValue b); [ | lia].
      apply BNOrder.shorter_is_less; try assumption; [ | lia].
      now rewrite <- HexFacts.hexToBn_words.
    + rewrite BufferMore.cmp_equal_length in Elt by assumption.
      destruct (BN.value F ?= BN.value U) eqn:Ec; try discriminate Elt.
      change (BN.value F < BN.value U) in Ec. lia.
    + rewrite BufferMore.cmp_longer in Elt by assumption. discriminate Elt.
  - intro Hgt.
    assert (BN.gt I U = true) as ->; [ | rewrite HexFacts.hexValue_bnToHex; lia].
    unfold BN.gt. apply Z.eqb_eq.
    destruct (Nat.lt_trichotomy (List.length I) (List.length U)) as [Hl | [Hl | Hl]].
    + exfalso. rewrite Lu in Hl.
      assert (BN.value I < hexValue b); [ | lia].
      apply BNOrder.shorter_is_less; try assumption.
      now rewrite <- HexFacts.hexToBn_words.
    + rewrite BufferMore.cmp_equal_length by assumption.
      assert (BN.value U < BN.value I) as Hc by lia.
      apply Z.compare_gt_iff in Hc. now rewrite Hc.
    + now apply BufferMore.cmp_longer.
Qed.

(** ** Whole runs of the estimator and the metadata writer *)

Local Open Scope string_scope.
Local Open Scope js_scope.

Module TruthyFacts.

Lemma bnToHex_nonempty (bn : BN.t) : (bnToHex bn =? "") = false.
Proof.
  unfold bnToHex. destruct (Z.to_N (BN.value bn)); reflexivity.
Qed.

Lemma addGasBuffer_nonempty (i b : string) : (addGasBuffer i b =? "") = false.
Proof.
  unfold addGasBuffer. cbv zeta.
  destruct (BN.gt _ _); [ | destruct (BN.lt _ _)]; apply bnToHex_nonempty.
Qed.

Lemma addHexPrefix_truthy (s : string) : Boolean (addHexPrefix (Some s)) = true.
Proof.
  cbn [addHexPrefix Boolean].
  destruct (isHexPrefixed s) eqn:E.
  - destruct s as [ | c s]; [discriminate E | reflexivity].
  - reflexivity.
Qed.

End TruthyFacts.

Section EstimatorMore.

Variable SEND_ETHER_ACTION_KEY : string.
Variable TRANSACTION_NO_CONTRACT_ERROR_KEY : string.
Variable isValidContractAddress : string -> bool.
Variable query : EthQuery.

Local Abbreviation estimate :=
  (estimateTxGasAndCollateral SEND_ETHER_ACTION_KEY TRANSACTION_NO_CONTRACT_ERROR_KEY
     isValidContractAddress query).
Local Abbreviation analyze :=
  (analyzeGasUsage SEND_ETHER_ACTION_KEY TRANSACTION_NO_CONTRACT_ERROR_KEY
     isValidContractAddress query).
Local Abbreviation settled :=
  (analyze_block_settled SEND_ETHER_ACTION_KEY TRANSACTION_NO_CONTRACT_ERROR_KEY
     isValidContractAddress query).

Ltac truthy :=
  cbn [Boolean]; rewrite ?TruthyFacts.addGasBuffer_nonempty, ?TruthyFacts.bnToHex_nonempty,
    ?TruthyFacts.addHexPrefix_truthy; cbn [negb].

(** The estimator in one equation: the record after the bookkeeping, and
    the four ways out. *)
Lemma estimate_eq (blockGasLimitHex : string) (getCodeResponse : option string) (h : Heap) :
  estimate blockGasLimitHex getCodeResponse h =
  let m := meta h in
  let p := txParams m in
  let limit := if Boolean (storageLimit p) then storageLimit p
               else Some SIMPLE_STORAGE_COST in
  let plain := simpleSend m || to_is_plain_account isValidContractAddress p in
  let fallback := bnToHex (BnMultiplyByFraction (hexToBn blockGasLimitHex) 19 20) in
  let booked g simple :=
    mkTxMeta (mkTxParams (to p) (data p) g limit) (transactionCategory m) simple
      (Boolean (gas p)) true (estimatedGas m) (estimatedStorage m) (simulationFails m) in
  if Boolean (gas p) then
    (Normal (VObject (gas p) limit), mkHeap (booked (gas p) plain) (requests h))
  else if Boolean (to p) && strict_eq (transactionCategory m) SEND_ETHER_ACTION_KEY then
    if Boolean (data p) then
      (Throw (Err.mk "TxGasUtil - Trying to call a function on a non-contract address"
                (Some TRANSACTION_NO_CONTRACT_ERROR_KEY) getCodeResponse),
       mkHeap (booked (gas p) plain) (requests h))
    else
      (Normal (VString SIMPLE_GAS_COST),
       mkHeap (booked (Some SIMPLE_GAS_COST) true) (requests h))
  else
    (match estimateGas query (mkTxParams (to p) (data p) (Some fallback) limit) with
     | Normal (gasUsed, storageCollateralized) =>
         Normal (VObject (Some gasUsed) (Some storageCollateralized))
     | Throw e => Throw e
     end,
     mkHeap (booked (Some fallback) plain)
       (requests h ++ [EstimateGas (mkTxParams (to p) (data p) (Some fallback) limit)])).
Proof.
  cbv zeta. open_heap h. unfold to_is_plain_account. cbn [to].
  branches; cbn [orb]; rewrite ?orb_true_r, ?orb_false_r; reflexivity.
Qed.

(** The metadata writer in one equation. *)
Lemma setTxGas_eq (blockGasLimitHex : string) (g s : option string) (h : Heap) :
  setTxGas blockGasLimitHex g s h =
  let m := meta h in
  let p := txParams m in
  (Normal tt,
   mkHeap
     (if simpleSend m then
        mkTxMeta p (transactionCategory m) true (gasLimitSpecified m)
          (storageLimitSpecified m) (gas p) (Some SIMPLE_STORAGE_COST) (simulationFails m)
      else
        let storage := if storageLimitSpecified m then storageLimit p
                       else addHexPrefix s in
        if gasLimitSpecified m then
          mkTxMeta p (transactionCategory m) false true (storageLimitSpecified m)
            (gas p) storage (simulationFails m)
        else
          mkTxMeta
            (mkTxParams (to p) (data p)
               (Some (addGasBuffer (hex_arg (addHexPrefix g)) blockGasLimitHex))
               (if storageLimitSpecified m then storageLimit p else storage))
            (transactionCategory m) false false (storageLimitSpecified m)
            (addHexPrefix g) storage (simulationFails m))
     (requests h)).
Proof.
  cbv zeta. open_heap h. branches; reflexivity.
Qed.

Ltac project :=
  unfold set_simulationFails;
  cbn [meta requests txParams transactionCategory simpleSend gasLimitSpecified
       storageLimitSpecified estimatedGas estimatedStorage simulationFails
       to data gas storageLimit fst snd destructure fetched negb andb orb].

(** One run, the block fetched, in terms of the two equations. *)
Ltac one_run Hb :=
  rewrite (settled _ _ _ Hb), estimate_eq; cbv zeta; project.

Ltac split_bool :=
  repeat match goal with
         | H : ?x = true |- context [if ?x then _ else _] => rewrite H
         | H : ?x = false |- context [if ?x then _ else _] => rewrite H
         | |- context [if ?b then _ else _] =>
             let a := atom_of b in
             let E := fresh "E" in destruct a eqn:E; project
         end.

(** The estimator throws in two ways only, and never when the caller gave
    a gas limit: its own error on a transfer carrying data, raised before
    any request, with the caller's [getCodeResponse] on it; or the error of
    the network estimate, passed on as it is, after the one estimate request
    on the parameters the record then holds. *)
Theorem estimate_throws_two_errors
    (blockGasLimitHex : string) (getCodeResponse : option string) (h h1 : Heap)
    (err : Err.t) :
  estimate blockGasLimitHex getCodeResponse h = (Throw err, h1) ->
  Boolean (gas (txParams (meta h))) = false /\
  ((Boolean (to (txParams (meta h))) = true /\
    strict_eq (transactionCategory (meta h)) SEND_ETHER_ACTION_KEY = true /\
    Boolean (data (txParams (meta h))) = true /\
    err = Err.mk "TxGasUtil - Trying to call a function on a non-contract address"
                 (Some TRANSACTION_NO_CONTRACT_ERROR_KEY) getCodeResponse /\
    requests h1 = requests h) \/
   (Boolean (to (txParams (meta h)))
      && strict_eq (transactionCategory (meta h)) SEND_ETHER_ACTION_KEY = false /\
    estimateGas query (txParams (meta h1)) = Throw err /\
    requests h1 = (requests h ++ [EstimateGas (txParams (meta h1))])%list)).
Proof.
  intro H. rewrite estimate_eq in H. cbv zeta in H.
  destruct (Boolean (gas (txParams (meta h)))) eqn:Egas; [discriminate H | ].
  split; [reflexivity | ].
  destruct (Boolean (to (txParams (meta h))) && _) eqn:Esimple.
  - apply andb_prop in Esimple as [Eto Ecat].
    destruct (Boolean (data (txParams (meta h)))) eqn:Edata;
      inversion H; subst; clear H.
    left. project. repeat split; assumption.
  - destruct (estimateGas query _) as [[gasUsed storageCollateralized] | e] eqn:Eest;
      inversion H; subst; clear H.
    right. project. repeat split. exact Eest.
Qed.

(** Whenever the block is fetched and the estimator returns, the run
    returns with [params.gas], [params.storageLimit], [estimatedGas] and
    [estimatedStorage] all non-empty and [simulationFails] as it was. *)
Theorem success_populates_record
    (getCodeResponse : option string) (h h1 : Heap) (block : Block) (v : JsValue) :
  getBlockByNumber query "latest" false = Normal block ->
  estimate (gasLimit block) getCodeResponse (fetched h) = (Normal v, h1) ->
  exists h',
    analyze getCodeResponse h = (Normal tt, h') /\
    Boolean (gas (txParams (meta h'))) = true /\
    Boolean (storageLimit (txParams (meta h'))) = true /\
    Boolean (estimatedGas (meta h')) = true /\
    Boolean (estimatedStorage (meta h')) = true /\
    simulationFails (meta h') = simulationFails (meta h).
Proof.
  intros Hb Hest. rewrite (settled _ _ _ Hb), Hest. clear Hb.
  rewrite estimate_eq in Hest. cbv zeta in Hest. rewrite setTxGas_eq. cbv zeta.
  eexists. split; [reflexivity | ]. revert Hest. project.
  destruct (Boolean (gas (txParams (meta h)))) eqn:Egas.
  - intro H. inversion H; subst; clear H. project.
    split_bool; repeat split; truthy; auto.
  - destruct (Boolean (to (txParams (meta h))) && _).
    + destruct (Boolean (data (txParams (meta h)))); intro H; inversion H; subst; clear H.
      project. split_bool; repeat split; truthy; auto.
    + destruct (estimateGas query _) as [[gasUsed storageCollateralized] | e];
        intro H; inversion H; subst; clear H. project.
      split_bool; repeat split; truthy; auto.
Qed.

(** The requests of one run: always the latest block, first; then, only if
    the block arrived, the caller gave no gas limit and the transaction is
    not a transfer with a recipient, one gas estimate, on the caller's
    recipient and data with the fallback gas and the storage limit of the
    caller (or [0x0]). Nothing else is ever sent. *)
Theorem requests_of_a_run (getCodeResponse : option string) (h : Heap) :
  requests (snd (analyze getCodeResponse h)) =
  (requests h ++ GetBlockByNumber "latest" false ::
   match getBlockByNumber query "latest" false with
   | Throw _ => []
   | Normal block =>
       if Boolean (gas (txParams (meta h)))
          || Boolean (to (txParams (meta h)))
             && strict_eq (transactionCategory (meta h)) SEND_ETHER_ACTION_KEY
       then []
       else [EstimateGas
               (mkTxParams (to (txParams (meta h))) (data (txParams (meta h)))
                  (Some (bnToHex (BnMultiplyByFraction (hexToBn (gasLimit block)) 19 20)))
                  (if Boolean (storageLimit (txParams (meta h)))
                   then storageLimit (txParams (meta h)) else Some SIMPLE_STORAGE_COST))]
   end)%list.
Proof.
  destruct (getBlockByNumber query "latest" false) as [block | e] eqn:Hb.
  - one_run Hb.
    destruct (Boolean (gas (txParams (meta h)))); project;
      [rewrite setTxGas_eq; reflexivity | ].
    destruct (Boolean (to (txParams (meta h))) && _); project.
    + destruct (Boolean (data (txParams (meta h)))); [ | rewrite setTxGas_eq]; reflexivity.
    + destruct (estimateGas query _) as [[gasUsed storageCollateralized] | e];
        [rewrite setTxGas_eq | ]; project; now rewrite <- app_assoc.
  - rewrite (analyze_block_rejected _ _ _ _ _ _ _ Hb). reflexivity.
Qed.

(** A run with a gas limit of the caller. *)
Lemma explicit_gas_run (getCodeResponse : option string) (h : Heap) (block : Block) :
  Boolean (gas (txParams (meta h))) = true ->
  getBlockByNumber query "latest" false = Normal block ->
  exists h',
    analyze getCodeResponse h = (Normal tt, h') /\
    requests h' = (requests h ++ [GetBlockByNumber "latest" false])%list /\
    gas (txParams (meta h')) = gas (txParams (meta h)) /\
    storageLimit (txParams (meta h')) =
      (if Boolean (storageLimit (txParams (meta h)))
       then storageLimit (txParams (meta h)) else Some SIMPLE_STORAGE_COST) /\
    estimatedGas (meta h') = gas (txParams (meta h)) /\
    estimatedStorage (meta h') =
      (if simpleSend (meta h) || to_is_plain_account isValidContractAddress (txParams (meta h))
       then Some SIMPLE_STORAGE_COST
       else storageLimit (txParams (meta h'))) /\
    simulationFails (meta h') = simulationFails (meta h) /\
    to (txParams (meta h')) = to (txParams (meta h)) /\
    data (txParams (meta h')) = data (txParams (meta h)).
Proof.
  intros Hgas Hb. one_run Hb. rewrite Hgas, setTxGas_eq. cbv zeta. project.
  eexists. split; [reflexivity | ]. project.
  destruct (simpleSend (meta h) || _); project; repeat split; reflexivity.
Qed.

(** A gas limit of the caller alone is enough to skip the network
    estimate: the run asks for the block only, leaves [params.gas] as it was,
    reports it as [estimatedGas], fills a missing storage limit with [0x0]
    and does not touch [simulationFails]. *)
Theorem explicit_gas_short_circuits
    (getCodeResponse : option string) (h : Heap) (block : Block) :
  Boolean (gas (txParams (meta h))) = true ->
  getBlockByNumber query "latest" false = Normal block ->
  exists h',
    analyze getCodeResponse h = (Normal tt, h') /\
    requests h' = (requests h ++ [GetBlockByNumber "latest" false])%list /\
    gas (txParams (meta h')) = gas (txParams (meta h)) /\
    estimatedGas (meta h') = gas (txParams (meta h)) /\
    storageLimit (txParams (meta h')) =
      (if Boolean (storageLimit (txParams (meta h)))
       then storageLimit (txParams (meta h)) else Some "0x0") /\
    simulationFails (meta h') = simulationFails (meta h).
Proof.
  intros Hgas Hb.
  destruct (explicit_gas_run getCodeResponse h block Hgas Hb)
    as (h' & Hrun & Hreq & Hg & Hs & Heg & _ & Hsf & _).
  exists h'. repeat split; assumption.
Qed.

(** Unless the run is rejected as a call on a non-contract address, it
    leaves both limits non-empty, whether the network estimate settles or
    rejects. *)
Lemma run_leaves_limits (getCodeResponse : option string) (h : Heap) (block : Block) :
  getBlockByNumber query "latest" false = Normal block ->
  negb (Boolean (gas (txParams (meta h))))
    && Boolean (to (txParams (meta h)))
    && strict_eq (transactionCategory (meta h)) SEND_ETHER_ACTION_KEY
    && Boolean (data (txParams (meta h))) = false ->
  Boolean (gas (txParams (meta (snd (analyze getCodeResponse h))))) = true /\
  Boolean (storageLimit (txParams (meta (snd (analyze getCodeResponse h))))) = true.
Proof.
  intros Hb. one_run Hb.
  destruct (Boolean (gas (txParams (meta h)))) eqn:Egas,
    (Boolean (to (txParams (meta h)))) eqn:Eto,
    (strict_eq (transactionCategory (meta h)) SEND_ETHER_ACTION_KEY) eqn:Ecat,
    (Boolean (data (txParams (meta h)))) eqn:Edata;
    project; intro Hrej; try discriminate Hrej; clear Hrej;
    try (destruct (estimateGas query _) as [[gasUsed storageCollateralized] | e]);
    rewrite ?setTxGas_eq; cbv zeta; project;
    split_bool; split; truthy; auto.
Qed.


(** No run, whatever its outcome, changes the recipient, the data or the
    category; a non-empty gas limit or storage limit of the caller is never
    overwritten; and [simpleSend], once set, stays set. *)
Theorem run_keeps_what_the_caller_gave (getCodeResponse : option string) (h : Heap) :
  to (txParams (meta (snd (analyze getCodeResponse h)))) = to (txParams (meta h)) /\
  data (txParams (meta (snd (analyze getCodeResponse h)))) = data (txParams (meta h)) /\
  transactionCategory (meta (snd (analyze getCodeResponse h))) = transactionCategory (meta h) /\
  (Boolean (gas (txParams (meta h))) = true ->
   gas (txParams (meta (snd (analyze getCodeResponse h)))) = gas (txParams (meta h))) /\
  (Boolean (storageLimit (txParams (meta h))) = true ->
   storageLimit (txParams (meta (snd (analyze getCodeResponse h))))
     = storageLimit (txParams (meta h))) /\
  (simpleSend (meta h) = true -> simpleSend (meta (snd (analyze getCodeResponse h))) = true).
Proof.
  destruct (getBlockByNumber query "latest" false) as [block | e] eqn:Hb.
  - one_run Hb.
    destruct (Boolean (gas (txParams (meta h)))) eqn:Egas; project.
    + rewrite setTxGas_eq. cbv zeta. project.
      split_bool; repeat split; intros; try reflexivity; congruence.
    + destruct (Boolean (to (txParams (meta h))) && _); project;
        [destruct (Boolean (data (txParams (meta h)))); project
        | destruct (estimateGas query _) as [[gasUsed storageCollateralized] | e]; project];
        rewrite ?setTxGas_eq; cbv zeta; project;
        split_bool; repeat split; intros; try reflexivity; try congruence;
        match goal with H : simpleSend _ = true |- _ => now rewrite H end.
  - rewrite (analyze_block_rejected _ _ _ _ _ _ _ Hb). cbn. repeat split; auto.
Qed.

(** A call that needs the network estimate: with no gas limit of the
    caller, no transfer category, and neither a set [simpleSend] nor a
    code-less recipient, [estimatedGas] is the prefixed [gasUsed] of the
    network, [params.gas] its buffer against the block gas limit, and both
    [estimatedStorage] and [params.storageLimit] are the caller's storage
    limit or [0x0], not the collateral of the network. With a block gas
    limit below [2^26] the buffered gas is the buffer of the comments. *)
Theorem contract_call_is_buffered
    (getCodeResponse : option string) (h : Heap) (block : Block)
    (gasUsed storageCollateralized : string) :
  Boolean (gas (txParams (meta h))) = false ->
  Boolean (to (txParams (meta h)))
    && strict_eq (transactionCategory (meta h)) SEND_ETHER_ACTION_KEY = false ->
  simpleSend (meta h) || to_is_plain_account isValidContractAddress (txParams (meta h))
    = false ->
  getBlockByNumber query "latest" false = Normal block ->
  estimateGas query
    (mkTxParams (to (txParams (meta h))) (data (txParams (meta h)))
       (Some (bnToHex (BnMultiplyByFraction (hexToBn (gasLimit block)) 19 20)))
       (if Boolean (storageLimit (txParams (meta h)))
        then storageLimit (txParams (meta h)) else Some SIMPLE_STORAGE_COST))
    = Normal (gasUsed, storageCollateralized) ->
  let estimated := if isHexPrefixed gasUsed then gasUsed else "0x" ++ gasUsed in
  exists h',
    analyze getCodeResponse h = (Normal tt, h') /\
    estimatedGas (meta h') = Some estimated /\
    gas (txParams (meta h')) = Some (addGasBuffer estimated (gasLimit block)) /\
    estimatedStorage (meta h') = storageLimit (txParams (meta h')) /\
    storageLimit (txParams (meta h')) =
      (if Boolean (storageLimit (txParams (meta h)))
       then storageLimit (txParams (meta h)) else Some "0x0") /\
    (hexValue (gasLimit block) < 2 ^ 26 ->
     forall buffered, gas (txParams (meta h')) = Some buffered ->
       hexValue buffered = spec_buffer (hexValue estimated) (hexValue (gasLimit block)))%Z.
Proof.
  intros Hgas Hsimple Hplain Hb Hest. cbv zeta.
  one_run Hb. rewrite Hgas, Hsimple, Hest, Hplain, setTxGas_eq. cbv zeta. project.
  eexists. split; [reflexivity | ]. project.
  cbn [addHexPrefix hex_arg].
  repeat split.
  intros Hone buffered Hbuf. injection Hbuf as <-.
  now apply addGasBuffer_one_word.
Qed.

End EstimatorMore.

(** After a run that fetched the block and was not rejected as a call on a
    non-contract address, a later run on the record it left never estimates
    again, whatever the network has become: on any adapter it requests the
    block and nothing else and leaves the transaction parameters and
    [simulationFails] as the first run left them; and if that adapter serves
    a block it returns, with [estimatedGas] equal to [params.gas]. A first
    run rejected at the block fetch leaves the record as it found it, and is
    no such run. *)
Theorem second_run_short_circuits
    (SEND_ETHER_ACTION_KEY TRANSACTION_NO_CONTRACT_ERROR_KEY : string)
    (isValidContractAddress : string -> bool) (query query' : EthQuery)
    (getCodeResponse getCodeResponse' : option string) (h : Heap) (block : Block) :
  getBlockByNumber query "latest" false = Normal block ->
  negb (Boolean (gas (txParams (meta h))))
    && Boolean (to (txParams (meta h)))
    && strict_eq (transactionCategory (meta h)) SEND_ETHER_ACTION_KEY
    && Boolean (data (txParams (meta h))) = false ->
  let analyze := analyzeGasUsage SEND_ETHER_ACTION_KEY TRANSACTION_NO_CONTRACT_ERROR_KEY
                   isValidContractAddress in
  let h1 := snd (analyze query getCodeResponse h) in
  let second := analyze query' getCodeResponse' h1 in
  requests (snd second) = (requests h1 ++ [GetBlockByNumber "latest" false])%list /\
  txParams (meta (snd second)) = txParams (meta h1) /\
  simulationFails (meta (snd second)) = simulationFails (meta h1) /\
  (forall block', getBlockByNumber query' "latest" false = Normal block' ->
     fst second = Normal tt /\
     estimatedGas (meta (snd second)) = gas (txParams (meta h1))).
Proof.
  intros Hb Hrej analyze h1 second.
  destruct (run_leaves_limits SEND_ETHER_ACTION_KEY TRANSACTION_NO_CONTRACT_ERROR_KEY
              isValidContractAddress query getCodeResponse h block Hb Hrej)
    as [Hgas Hstorage].
  fold analyze in Hgas, Hstorage. fold h1 in Hgas, Hstorage.
  destruct (getBlockByNumber query' "latest" false) as [block' | e] eqn:Hb'.
  - destruct (explicit_gas_run SEND_ETHER_ACTION_KEY TRANSACTION_NO_CONTRACT_ERROR_KEY
                isValidContractAddress query' getCodeResponse' h1 block' Hgas Hb')
      as (h2 & Hrun & Hreq & Hg & Hs & Heg & _ & Hsf & Hto & Hdata).
    fold analyze in Hrun. fold second in Hrun. rewrite Hrun. cbn [fst snd].
    rewrite Hstorage in Hs.
    split; [exact Hreq | split; [ | split; [exact Hsf | ]]].
    + destruct (txParams (meta h2)) as [t2 d2 g2 s2],
        (txParams (meta h1)) as [t1 d1 g1 s1].
      cbn in Hg, Hs, Hto, Hdata. congruence.
    + intros block'' Hsame. split; [reflexivity | exact Heg].
  - subst second analyze.
    rewrite (analyze_block_rejected SEND_ETHER_ACTION_KEY TRANSACTION_NO_CONTRACT_ERROR_KEY
               isValidContractAddress query' getCodeResponse' h1 e Hb').
    cbn [snd fst fetched meta requests].
    split; [reflexivity | split; [reflexivity | split; [reflexivity | ]]].
    intros block' Hnone. discriminate Hnone.
Qed.

(** ** The further properties on sample transactions *)

Lemma addGasBuffer_one_word_limit_witness :
  hexValue (addGasBuffer "0x2710" "0x186a0")
    = spec_buffer (hexValue "0x2710") (hexValue "0x186a0").
Proof.
  apply (addGasBuffer_one_word_limit "0x2710" "0x186a0"). vm_compute. reflexivity.
Defined.

Lemma addGasBuffer_one_word_fixed_point_witness :
  hexValue (addGasBuffer (addGasBuffer "0x15f90" "0x186a0") "0x186a0")
    = hexValue (addGasBuffer "0x15f90" "0x186a0") /\
  (hexValue "0x15f90" <= hexValue (addGasBuffer "0x15f90" "0x186a0"))%Z /\
  ((hexValue (addGasBuffer "0x15f90" "0x186a0") <= hexValue "0x186a0" * 9 / 10)%Z \/
   (hexValue "0x186a0" * 9 / 10 < hexValue "0x15f90")%Z).
Proof.
  pose proof (addGasBuffer_one_word_fixed_point "0x15f90" "0x186a0") as H.
  cbv zeta in H. destruct H as (Hfix & Hlow & Hhigh); [vm_compute; reflexivity | ].
  split; [apply Hfix; vm_compute; discriminate | split; assumption].
Defined.

Lemma addGasBuffer_within_limit_witness :
  (hexValue (addGasBuffer "0x30d40" "0x186a0")
     <= Z.max (hexValue "0x30d40") (hexValue "0x186a0"))%Z /\
  hexValue (addGasBuffer "0x30d40" "0x186a0") = hexValue "0x30d40".
Proof.
  destruct (addGasBuffer_within_limit "0x30d40" "0x186a0") as [Hmax Hsame].
  split; [exact Hmax | apply Hsame; vm_compute; reflexivity].
Defined.

Lemma estimate_throws_two_errors_witness :
  Boolean (gas (txParams (meta Sample.transfer_with_data))) = false /\
  ((Boolean (to (txParams (meta Sample.transfer_with_data))) = true /\
    strict_eq (transactionCategory (meta Sample.transfer_with_data))
      Sample.SEND_ETHER_ACTION_KEY = true /\
    Boolean (data (txParams (meta Sample.transfer_with_data))) = true /\
    Err.mk "TxGasUtil - Trying to call a function on a non-contract address"
      (Some Sample.TRANSACTION_NO_CONTRACT_ERROR_KEY) (Some "0x")
      = Err.mk "TxGasUtil - Trying to call a function on a non-contract address"
          (Some Sample.TRANSACTION_NO_CONTRACT_ERROR_KEY) (Some "0x") /\
    requests (snd (sample_estimate Sample.query "0x186a0" (Some "0x")
                     Sample.transfer_with_data))
      = requests Sample.transfer_with_data) \/
   (Boolean (to (txParams (meta Sample.transfer_with_data)))
      && strict_eq (transactionCategory (meta Sample.transfer_with_data))
           Sample.SEND_ETHER_ACTION_KEY = false /\
    estimateGas Sample.query
      (txParams (meta (snd (sample_estimate Sample.query "0x186a0" (Some "0x")
                              Sample.transfer_with_data))))
      = Throw (Err.mk "TxGasUtil - Trying to call a function on a non-contract address"
                 (Some Sample.TRANSACTION_NO_CONTRACT_ERROR_KEY) (Some "0x")) /\
    requests (snd (sample_estimate Sample.query "0x186a0" (Some "0x")
                     Sample.transfer_with_data))
      = (requests Sample.transfer_with_data
         ++ [EstimateGas
               (txParams (meta (snd (sample_estimate Sample.query "0x186a0" (Some "0x")
                                       Sample.transfer_with_data))))])%list)).
Proof.
  exact (estimate_throws_two_errors Sample.SEND_ETHER_ACTION_KEY
           Sample.TRANSACTION_NO_CONTRACT_ERROR_KEY Sample.isValidContractAddress
           Sample.query "0x186a0" (Some "0x") Sample.transfer_with_data _ _ eq_refl).
Defined.

Lemma success_populates_record_witness :
  exists h',
    sample_analyze Sample.query None Sample.call_with_storage = (Normal tt, h') /\
    Boolean (gas (txParams (meta h'))) = true /\
    Boolean (storageLimit (txParams (meta h'))) = true /\
    Boolean (estimatedGas (meta h')) = true /\
    Boolean (estimatedStorage (meta h')) = true /\
    simulationFails (meta h') = simulationFails (meta Sample.call_with_storage).
Proof.
  exact (success_populates_record Sample.SEND_ETHER_ACTION_KEY
           Sample.TRANSACTION_NO_CONTRACT_ERROR_KEY Sample.isValidContractAddress
           Sample.query None Sample.call_with_storage
           (snd (sample_estimate Sample.query "0x186a0" None
                   (fetched Sample.call_with_storage)))
           Sample.block (VObject (Some "0x2710") (Some "0x40")) eq_refl eq_refl).
Defined.

Lemma explicit_gas_short_circuits_witness :
  exists h',
    sample_analyze Sample.query None Sample.fully_specified = (Normal tt, h') /\
    requests h' = [GetBlockByNumber "latest" false] /\
    gas (txParams (meta h')) = Some "0x77" /\
    estimatedGas (meta h') = Some "0x77" /\
    storageLimit (txParams (meta h')) = Some "0x99" /\
    simulationFails (meta h') = None.
Proof.
  exact (explicit_gas_short_circuits Sample.SEND_ETHER_ACTION_KEY
           Sample.TRANSACTION_NO_CONTRACT_ERROR_KEY Sample.isValidContractAddress
           Sample.query None Sample.fully_specified Sample.block eq_refl eq_refl).
Defined.

Lemma second_run_short_circuits_witness :
  requests (snd (sample_analyze Sample.query_failing (Some "0x")
                   (snd (sample_analyze Sample.query None Sample.deployment))))
    = (requests (snd (sample_analyze Sample.query None Sample.deployment))
       ++ [GetBlockByNumber "latest" false])%list /\
  txParams (meta (snd (sample_analyze Sample.query_failing (Some "0x")
                         (snd (sample_analyze Sample.query None Sample.deployment)))))
    = txParams (meta (snd (sample_analyze Sample.query None Sample.deployment))) /\
  simulationFails
    (meta (snd (sample_analyze Sample.query_failing (Some "0x")
                  (snd (sample_analyze Sample.query None Sample.deployment)))))
    = simulationFails (meta (snd (sample_analyze Sample.query None Sample.deployment))) /\
  fst (sample_analyze Sample.query_failing (Some "0x")
         (snd (sample_analyze Sample.query None Sample.deployment))) = Normal tt /\
  estimatedGas
    (meta (snd (sample_analyze Sample.query_failing (Some "0x")
                  (snd (sample_analyze Sample.query None Sample.deployment)))))
    = gas (txParams (meta (snd (sample_analyze Sample.query None Sample.deployment)))).
Proof.
  pose proof (second_run_short_circuits Sample.SEND_ETHER_ACTION_KEY
                Sample.TRANSACTION_NO_CONTRACT_ERROR_KEY Sample.isValidContractAddress
                Sample.query Sample.query_failing None (Some "0x") Sample.deployment
                Sample.block eq_refl eq_refl) as H.
  cbv zeta in H. destruct H as (Hrequests & Hparams & Hfails & Hserved).
  exact (conj Hrequests (conj Hparams (conj Hfails (Hserved Sample.block eq_refl)))).
Defined.


Lemma run_keeps_what_the_caller_gave_witness :
  let h := snd (sample_analyze Sample.query None Sample.transfer) in
  let h' := snd (sample_analyze Sample.query None h) in
  to (txParams (meta h')) = to (txParams (meta h)) /\
  data (txParams (meta h')) = data (txParams (meta h)) /\
  transactionCategory (meta h') = transactionCategory (meta h) /\
  gas (txParams (meta h')) = gas (txParams (meta h)) /\
  storageLimit (txParams (meta h')) = storageLimit (txParams (meta h)) /\
  simpleSend (meta h') = true.
Proof.
  intros h h'.
  destruct (run_keeps_what_the_caller_gave Sample.SEND_ETHER_ACTION_KEY
              Sample.TRANSACTION_NO_CONTRACT_ERROR_KEY Sample.isValidContractAddress
              Sample.query None h)
    as (Hto & Hdata & Hcategory & Hgas & Hstorage & Hsimple).
  exact (conj Hto (conj Hdata (conj Hcategory
           (conj (Hgas eq_refl) (conj (Hstorage eq_refl) (Hsimple eq_refl)))))).
Defined.

Lemma contract_call_is_buffered_witness :
  exists h',
    sample_analyze Sample.query None Sample.call_with_storage = (Normal tt, h') /\
    estimatedGas (meta h') = Some "0x2710" /\
    gas (txParams (meta h')) = Some (addGasBuffer "0x2710" "0x186a0") /\
    estimatedStorage (meta h') = storageLimit (txParams (meta h')) /\
    storageLimit (txParams (meta h')) = Some "0x99" /\
    hexValue (addGasBuffer "0x2710" "0x186a0")
      = spec_buffer (hexValue "0x2710") (hexValue "0x186a0").
Proof.
  destruct (contract_call_is_buffered Sample.SEND_ETHER_ACTION_KEY
              Sample.TRANSACTION_NO_CONTRACT_ERROR_KEY Sample.isValidContractAddress
              Sample.query None Sample.call_with_storage Sample.block "0x2710" "0x40"
              eq_refl eq_refl eq_refl eq_refl eq_refl)
    as (h' & Hrun & Hestimated & Hgas & Hstorage & Hlimit & Hbuffer).
  exists h'.
  exact (conj Hrun (conj Hestimated (conj Hgas (conj Hstorage (conj Hlimit
           (Hbuffer eq_refl _ Hgas)))))).
Defined.
